(** * Recipe state machine and control routines of [backend/recipes/base.py]

    A shallow embedding of the [Recipe] class (the step-advancement state
    machine) and of the temperature routines [heat] and [maintain], followed
    by the properties of the specification that concern them.

    Conventions of the embedding.
    - A plan is the object loaded from a recipe's JSON file: ['steps'] is an
      array, so [plan['steps'][i]] is Python list indexing (a negative index
      counts from the end, an index out of range raises [IndexError]).
    - A step is a dictionary; a key that may be missing is an [option] field,
      and reading a missing key with [d[k]] raises [KeyError].
    - Numbers (temperatures, durations) are rationals, the values of the
      Python numbers, and are compared as such.  Where the code adds or
      subtracts temperatures (the band tests of [maintain]) the operation
      is Python's float operation: the operands are taken as binary64
      floats and the sum or difference is rounded as IEEE 754 has it.
      The elapsed time of [maintain] and [stir] is the difference of two
      clock readings as numbers; what is proved of these loops takes the
      outcome of the loop tests as its hypothesis.
    - The parameters of a task have the types the module documents (numbers
      for ['temp'], ['time'], ['tolerance'] and ['volume'], strings for
      ['type'] and ['pump']), and the hardware calls return.
    - Python exceptions keep the assignments made before the raise: every
      method returns the object as it is left, together with either the
      returned value or the exception.
    - The collaborators [celery] and [hardware] are not part of the module.
      Their answers are inputs of the model, and every call made to them is
      recorded, in order, in a list of events. *)

From Stdlib Require Import List ZArith QArith Bool String Lia.
From Stdlib Require PrimFloat SpecFloat FloatOps.
Import ListNotations.

Open Scope string_scope.
Open Scope Z_scope.
Open Scope list_scope.

(** ** Data model *)

(** The five values of [Recipe.status]. *)
Inductive Status : Type :=
| idle
| running
| user_input
| complete
| error.

(** The ['parameters'] dictionary of a step, passed as the single argument
    of a task function. *)
Record Parameters : Type := mkParameters {
  p_time : option Q;
  p_temp : option Q;
  p_tolerance : option Q;
  p_type : option string;
  p_pump : option string;
  p_volume : option Q
}.

(** One entry of a step's ['options'] array. *)
Record PlanOption : Type := mkPlanOption {
  opt_text : string;
  opt_next : Z
}.

(** One entry of the plan's ['steps'] array.  ['nr'] is documentation only:
    the code addresses a step by its position in the array.  ['done'] holds
    a JSON boolean, so [step['done'] == True] is the boolean itself. *)
Record Step : Type := mkStep {
  step_message : option string;
  step_next : option Z;
  step_icon : option string;
  step_options : option (list PlanOption);
  step_baseTask : option string;
  step_task : option string;
  step_parameters : option Parameters;
  step_done : option bool
}.

Record Plan : Type := mkPlan {
  title : string;
  steps : list Step
}.

(** The instance attributes of [Recipe]; [time] is [None] for the empty
    string [''] and [Some t] for a number copied from the parameters. *)
Record Recipe : Type := mkRecipe {
  step : Z;
  message : string;
  status : Status;
  options : list string;
  icon : string;
  time : option Q
}.

(** The dictionary returned by [getStatus]. *)
Record StatusObject : Type := mkStatusObject {
  ret_status : Status;
  ret_step : Z;
  ret_message : string;
  ret_options : list string;
  ret_icon : string;
  ret_time : option Q
}.

(** Calls that leave the module, in the order they are made. *)
Inductive Event : Type :=
| print_running (n : Z)
| isTaskComplete_call
| runTask_call (task : string) (parameters : Parameters) (base : bool)
| turnHeaterOn
| turnHeaterOff
| turnCoolerOn
| turnCoolerOff
| sleep (seconds : Q).

(** The answers of the [celery] module during one method call. *)
Record Celery : Type := mkCelery {
  isTaskComplete : bool;
  runTask : string -> Parameters -> bool -> bool
}.

Inductive Exn : Type :=
| KeyError (key : string)
| IndexError.

Inductive Result (A : Type) : Type :=
| Returned (a : A)
| Raised (e : Exn).
Arguments Returned {A} a.
Arguments Raised {A} e.

(** ** A state, exception and event monad for the methods of [Recipe] *)

Record Out (A : Type) : Type := mkOut {
  result : Result A;
  self : Recipe;
  calls : list Event
}.
Arguments mkOut {A} result self calls.
Arguments result {A} o.
Arguments self {A} o.
Arguments calls {A} o.

Definition M (A : Type) : Type := Recipe -> Out A.

Definition ret {A : Type} (a : A) : M A :=
  fun r => mkOut (Returned a) r [].

Definition raise {A : Type} (e : Exn) : M A :=
  fun r => mkOut (Raised e) r [].

Definition bind {A B : Type} (m : M A) (f : A -> M B) : M B :=
  fun r =>
    let o := m r in
    match result o with
    | Returned a =>
        let o' := f a (self o) in
        mkOut (result o') (self o') (calls o ++ calls o')
    | Raised e => mkOut (Raised e) (self o) (calls o)
    end.

Definition get : M Recipe :=
  fun r => mkOut (Returned r) r [].

Definition modify (f : Recipe -> Recipe) : M unit :=
  fun r => mkOut (Returned tt) (f r) [].

Definition call (e : Event) : M unit :=
  fun r => mkOut (Returned tt) r [e].

Notation "x <- m ;; k" := (bind m (fun x => k))
  (at level 61, m at next level, right associativity).
Notation "m ;; k" := (bind m (fun _ => k))
  (at level 61, right associativity).

(** Attribute assignments [self.f = v]. *)
Definition set_step (n : Z) (r : Recipe) : Recipe :=
  mkRecipe n (message r) (status r) (options r) (icon r) (time r).
Definition set_message (m : string) (r : Recipe) : Recipe :=
  mkRecipe (step r) m (status r) (options r) (icon r) (time r).
Definition set_status (s : Status) (r : Recipe) : Recipe :=
  mkRecipe (step r) (message r) s (options r) (icon r) (time r).
Definition set_options (o : list string) (r : Recipe) : Recipe :=
  mkRecipe (step r) (message r) (status r) o (icon r) (time r).
Definition set_icon (i : string) (r : Recipe) : Recipe :=
  mkRecipe (step r) (message r) (status r) (options r) i (time r).
Definition set_time (t : option Q) (r : Recipe) : Recipe :=
  mkRecipe (step r) (message r) (status r) (options r) (icon r) t.

(** [l[i]] on a Python list. *)
Definition getitem {A : Type} (l : list A) (i : Z) : option A :=
  let n := Z.of_nat (List.length l) in
  if 0 <=? i then nth_error l (Z.to_nat i)
  else if 0 <=? i + n then nth_error l (Z.to_nat (i + n))
  else None.

Definition index {A : Type} (l : list A) (i : Z) : M A :=
  match getitem l i with
  | Some a => ret a
  | None => raise IndexError
  end.

(** [d[k]] on a dictionary whose key [k] may be missing. *)
Definition key {A : Type} (k : string) (v : option A) : M A :=
  match v with
  | Some a => ret a
  | None => raise (KeyError k)
  end.

(** ** The class [Recipe] *)

(** The class attributes, which a fresh instance reads until it assigns its
    own. *)
Definition init : Recipe := mkRecipe 0 "" idle [] "" None.

Section RecipeMethods.

Variable plan : Plan.

Definition getStatus : M StatusObject :=
  r <- get ;;
  ret (mkStatusObject (status r) (step r) (message r) (options r)
         (icon r) (time r)).

Definition stop : M unit :=
  modify (set_step (-1)) ;;
  modify (set_status idle) ;;
  modify (set_message "") ;;
  modify (set_options []) ;;
  modify (set_time None) ;;
  call turnHeaterOff ;;
  call turnCoolerOff.

(** Lines 251-260 of [runStep]: the [time] field, the [done] flag and the
    final [return True]. *)
Definition finish_step (s : Step) : M bool :=
  match step_parameters s with
  | Some p =>
      match p_time p with
      | Some t => modify (set_time (Some t))
      | None => modify (set_time None)
      end
  | None => modify (set_time None)
  end ;;
  match step_done s with
  | Some true => modify (set_status complete)
  | _ => ret tt
  end ;;
  ret true.

Definition runStep (c : Celery) : M bool :=
  r <- get ;;
  call (print_running (step r)) ;;
  s <- index (steps plan) (step r) ;;
  m <- key "message" (step_message s) ;;
  modify (set_message m) ;;
  opts <- match step_options s with
          | Some os =>
              let opts := map opt_text os in
              (if (0 <? Z.of_nat (List.length opts))
               then modify (set_status user_input)
               else ret tt) ;;
              ret opts
          | None => ret []
          end ;;
  modify (set_options opts) ;;
  match step_icon s with
  | Some i => modify (set_icon i)
  | None => ret tt
  end ;;
  match step_baseTask s with
  | Some b =>
      if negb (String.eqb b "humanTask") then
        let tb := match step_task s with
                  | Some t => (t, false)
                  | None => (b, true)
                  end in
        p <- key "parameters" (step_parameters s) ;;
        call (runTask_call (fst tb) p (snd tb)) ;;
        if runTask c (fst tb) p (snd tb) then
          modify (set_status running) ;;
          finish_step s
        else
          modify (set_status error) ;;
          ret false
      else finish_step s
  | None => finish_step s
  end.

Definition start (c : Celery) : M unit :=
  modify (set_step 0) ;;
  runStep c ;;
  ret tt.

Definition updateStatus (c : Celery) : M StatusObject :=
  r <- get ;;
  match status r with
  | running =>
      call isTaskComplete_call ;;
      if isTaskComplete c then
        currentStep <- index (steps plan) (step r) ;;
        match step_done currentStep with
        | Some true => stop ;; getStatus
        | _ =>
            match step_next currentStep with
            | Some n => modify (set_step n) ;; runStep c ;; getStatus
            | None => getStatus
            end
        end
      else getStatus
  | _ => getStatus
  end.

(** The [for option in ...] loop of [selectOption]; [found] is the local
    flag. *)
Fixpoint scan_options (os : list PlanOption) (optionValue : string)
    (found : bool) : M bool :=
  match os with
  | [] => ret found
  | o :: os' =>
      if String.eqb (opt_text o) optionValue then
        modify (set_step (opt_next o)) ;;
        scan_options os' optionValue true
      else scan_options os' optionValue found
  end.

Definition selectOption (c : Celery) (optionValue : string)
    : M (bool * string) :=
  r <- get ;;
  s <- index (steps plan) (step r) ;;
  found <- match step_options s with
           | Some os => scan_options os optionValue false
           | None => ret false
           end ;;
  if negb found then
    ret (false, String.append "Invalid option " optionValue)
  else
    b <- runStep c ;;
    r' <- get ;;
    ret (b, message r').

End RecipeMethods.

(** ** Runs of the state machine *)

(** The public methods, as a caller invokes them. *)
Inductive Method : Type :=
| m_start
| m_stop
| m_getStatus
| m_updateStatus
| m_selectOption (optionValue : string).

(** The object after a method call, whether the call returned or raised. *)
Definition after (plan : Plan) (c : Celery) (m : Method) (r : Recipe)
    : Recipe :=
  match m with
  | m_start => self (start plan c r)
  | m_stop => self (stop r)
  | m_getStatus => self (getStatus r)
  | m_updateStatus => self (updateStatus plan c r)
  | m_selectOption v => self (selectOption plan c v r)
  end.

(** The calls a method call makes. *)
Definition emitted (plan : Plan) (c : Celery) (m : Method) (r : Recipe)
    : list Event :=
  match m with
  | m_start => calls (start plan c r)
  | m_stop => calls (stop r)
  | m_getStatus => calls (getStatus r)
  | m_updateStatus => calls (updateStatus plan c r)
  | m_selectOption v => calls (selectOption plan c v r)
  end.

(** [reachable plan r log]: a fresh [Recipe(plan)] can be brought to [r] by
    some sequence of method calls, whatever the Task Runner answers, and
    [log] lists the calls made on the way. *)
Inductive reachable (plan : Plan) : Recipe -> list Event -> Prop :=
| reachable_init : reachable plan init []
| reachable_call (r : Recipe) (log : list Event) (c : Celery) (m : Method) :
    reachable plan r log ->
    reachable plan (after plan c m r) (log ++ emitted plan c m r).

(** The step named by the last ['Running step n'] line printed. *)
Fixpoint last_run (log : list Event) : option Z :=
  match log with
  | [] => None
  | e :: log' =>
      match last_run log' with
      | Some n => Some n
      | None =>
          match e with
          | print_running n => Some n
          | _ => None
          end
      end
  end.

(** The positions of the plan's ['steps'] array. *)
Definition valid_id (plan : Plan) (i : Z) : Prop :=
  0 <= i < Z.of_nat (List.length (steps plan)).

(** A plan whose array is not empty and whose [next] and option targets
    are all positions of the array. *)
Definition closed (plan : Plan) : Prop :=
  steps plan <> [] /\
  forall s, In s (steps plan) ->
    (forall n, step_next s = Some n -> valid_id plan n) /\
    (forall os o, step_options s = Some os -> In o os ->
                  valid_id plan (opt_next o)).

(** What [runStep] assigns to [self.options] and [self.icon] for a step. *)
Definition option_texts (s : Step) : list string :=
  match step_options s with
  | Some os => map opt_text os
  | None => []
  end.

Definition sticky_icon (s : Step) (r : Recipe) : string :=
  match step_icon s with
  | Some i => i
  | None => icon r
  end.

(** The task name and [base] flag [runStep] passes to [celery.runTask]. *)
Definition task_of (s : Step) (baseTask : string) : string * bool :=
  match step_task s with
  | Some t => (t, false)
  | None => (baseTask, true)
  end.

(** The object after the assignments of [stop]. *)
Definition stopped (r : Recipe) : Recipe :=
  mkRecipe (-1) "" idle [] (icon r) None.

(** ** The control routines *)

(** The [hardware] module seen from a routine: the [k]-th call of
    [getTemp] returns [getTemp hw k], the [k]-th call of [secondSinceStart]
    returns [secondSinceStart hw k] (counting from 0). *)
Record Hardware : Type := mkHardware {
  getTemp : nat -> Q;
  secondSinceStart : nat -> Q
}.

Definition Qlt_b (x y : Q) : bool := negb (Qle_bool y x).

Definition interval : Q := 1 # 2.

(** The [while hardware.getTemp() < targetTemp] loop of [heat], after [k]
    readings.  [None] when [fuel] iterations were not enough. *)
Fixpoint heat_loop (fuel : nat) (hw : Hardware) (targetTemp : Q) (k : nat)
    : option (list Event) :=
  match fuel with
  | O => None
  | S fuel' =>
      if Qlt_b (getTemp hw k) targetTemp then
        option_map (cons (sleep interval))
          (heat_loop fuel' hw targetTemp (S k))
      else Some []
  end.

(** [heat(parameters)].  The logger call is not a hardware call and is left
    out of the events.  ['temp'] is a number, as documented, and the sensor
    answers: a comparison that raises is outside the model. *)
Definition heat (fuel : nat) (hw : Hardware) (parameters : Parameters)
    : option (Result unit * list Event) :=
  match p_temp parameters with
  | None => Some (Raised (KeyError "temp"), [])
  | Some targetTemp =>
      match heat_loop fuel hw targetTemp 0 with
      | Some evs =>
          Some (Returned tt, turnHeaterOn :: evs ++ [turnHeaterOff])
      | None => None
      end
  end.

(** The integer [z] as a binary64 float (the nearest one, ties to even). *)
Definition float_of_Z (z : Z) : PrimFloat.float :=
  FloatOps.SF2Prim
    (SpecFloat.binary_normalize FloatOps.prec FloatOps.emax z 0 false).

(** The float Python holds for the number [q]: [q] itself when [q] is the
    value of a float or of an integer below 2^53, and the float nearest to
    [q], as Python reads a decimal literal, when numerator and denominator
    are below 2^53. *)
Definition to_float (q : Q) : PrimFloat.float :=
  PrimFloat.div (float_of_Z (Qnum q)) (float_of_Z (Zpos (Qden q))).

(** [currentTemp - tolerance > targetTemp], in float arithmetic. *)
Definition above_band (targetTemp tolerance currentTemp : Q) : bool :=
  PrimFloat.ltb (to_float targetTemp)
    (PrimFloat.sub (to_float currentTemp) (to_float tolerance)).

(** [currentTemp + tolerance < targetTemp], in float arithmetic. *)
Definition below_band (targetTemp tolerance currentTemp : Q) : bool :=
  PrimFloat.ltb (PrimFloat.add (to_float currentTemp) (to_float tolerance))
    (to_float targetTemp).

(** The two [if] statements of one iteration of [maintain]. *)
Definition maintain_tick (type : string) (targetTemp tolerance : Q)
    (currentTemp : Q) : list Event :=
  (if above_band targetTemp tolerance currentTemp then
     if String.eqb type "heat" then [turnHeaterOff] else [turnCoolerOn]
   else []) ++
  (if below_band targetTemp tolerance currentTemp then
     if String.eqb type "heat" then [turnHeaterOn] else [turnCoolerOff]
   else []).

(** The [while (hardware.secondSinceStart() - start) < duration] loop of
    [maintain], after [k] iterations. *)
Fixpoint maintain_loop (fuel : nat) (hw : Hardware) (start duration : Q)
    (targetTemp tolerance : Q) (type : string) (k : nat)
    : option (list Event) :=
  match fuel with
  | O => None
  | S fuel' =>
      if Qlt_b (secondSinceStart hw (S k) - start) duration then
        option_map
          (fun evs =>
             sleep interval ::
             maintain_tick type targetTemp tolerance (getTemp hw k) ++ evs)
          (maintain_loop fuel' hw start duration targetTemp tolerance type
             (S k))
      else Some []
  end.

Definition maintain (fuel : nat) (hw : Hardware) (parameters : Parameters)
    : option (Result unit * list Event) :=
  match p_time parameters with
  | None => Some (Raised (KeyError "time"), [])
  | Some duration =>
  match p_temp parameters with
  | None => Some (Raised (KeyError "temp"), [])
  | Some targetTemp =>
  match p_tolerance parameters with
  | None => Some (Raised (KeyError "tolerance"), [])
  | Some tolerance =>
  match p_type parameters with
  | None => Some (Raised (KeyError "type"), [])
  | Some type =>
      let start := secondSinceStart hw 0 in
      match maintain_loop fuel hw start duration targetTemp tolerance type 0
      with
      | Some evs =>
          Some (Returned tt, evs ++ [turnHeaterOff; turnCoolerOff])
      | None => None
      end
  end end end end.

Definition set_type (t : string) (p : Parameters) : Parameters :=
  mkParameters (p_time p) (p_temp p) (p_tolerance p) (Some t) (p_pump p)
    (p_volume p).

Definition maintainCool (fuel : nat) (hw : Hardware)
    (parameters : Parameters) : option (Result unit * list Event) :=
  maintain fuel hw (set_type "cool" parameters).

Definition maintainHeat (fuel : nat) (hw : Hardware)
    (parameters : Parameters) : option (Result unit * list Event) :=
  maintain fuel hw (set_type "heat" parameters).

(** What [selectOption] makes of the outcome of its [runStep] call:
    [return ret, self.message]. *)
Definition answer (o : Out bool) : Out (bool * string) :=
  match result o with
  | Returned b => mkOut (Returned (b, message (self o))) (self o) (calls o)
  | Raised e => mkOut (Raised e) (self o) (calls o)
  end.

(** The last command sent to the heater ([true] for on), if any. *)
Fixpoint last_heater (evs : list Event) : option bool :=
  match evs with
  | [] => None
  | e :: evs' =>
      match last_heater evs' with
      | Some b => Some b
      | None =>
          match e with
          | turnHeaterOn => Some true
          | turnHeaterOff => Some false
          | _ => None
          end
      end
  end.

(** The last command sent to the cooler ([true] for on), if any. *)
Fixpoint last_cooler (evs : list Event) : option bool :=
  match evs with
  | [] => None
  | e :: evs' =>
      match last_cooler evs' with
      | Some b => Some b
      | None =>
          match e with
          | turnCoolerOn => Some true
          | turnCoolerOff => Some false
          | _ => None
          end
      end
  end.

Definition is_sleep (e : Event) : bool :=
  match e with
  | sleep _ => true
  | _ => false
  end.

(** The number of [hardware.sleep] calls. *)
Definition ticks (evs : list Event) : nat :=
  List.length (filter is_sleep evs).

Definition is_runTask (e : Event) : bool :=
  match e with
  | runTask_call _ _ _ => true
  | _ => false
  end.

(** The command of [maintain] when the reading is above the band, and the
    one when it is below. *)
Definition off_command (type : string) : Event :=
  if String.eqb type "heat" then turnHeaterOff else turnCoolerOn.

Definition on_command (type : string) : Event :=
  if String.eqb type "heat" then turnHeaterOn else turnCoolerOff.

(** ** Closed forms of [runStep] and the remaining routines *)

(** The [baseTask] a step hands to the Task Runner, if any: the test of
    line 236. *)
Definition dispatches (s : Step) : option string :=
  match step_baseTask s with
  | Some b => if negb (String.eqb b "humanTask") then Some b else None
  | None => None
  end.

(** The object after lines 222-234 of [runStep], on a step with message
    [m]. *)
Definition entered (s : Step) (m : string) (r : Recipe) : Recipe :=
  mkRecipe (step r) m
    (if 0 <? Z.of_nat (List.length (option_texts s))
     then user_input else status r)
    (option_texts s) (sticky_icon s r) (time r).

(** The object after lines 251-258 of [runStep]. *)
Definition finished (s : Step) (r : Recipe) : Recipe :=
  mkRecipe (step r) (message r)
    (match step_done s with
     | Some true => complete
     | _ => status r
     end)
    (options r) (icon r)
    (match step_parameters s with
     | Some p => p_time p
     | None => None
     end).

(** The calls the class [Recipe] may make; the others belong to the
    control routines. *)
Definition recipe_call (e : Event) : bool :=
  match e with
  | turnHeaterOn | turnCoolerOn | sleep _ => false
  | _ => true
  end.

(** The fields shown to the user are the class defaults or come from a step
    of the plan. *)
Definition from_plan (plan : Plan) (r : Recipe) : Prop :=
  (message r = "" \/
   exists s, In s (steps plan) /\ step_message s = Some (message r)) /\
  (options r = [] \/
   exists s, In s (steps plan) /\ options r = option_texts s) /\
  (icon r = "" \/
   exists s, In s (steps plan) /\ step_icon s = Some (icon r)) /\
  (time r = None \/
   exists s p, In s (steps plan) /\ step_parameters s = Some p /\
               time r = p_time p).

(** The [while hardware.getTemp() > targetTemp] loop of [cool], after [k]
    readings. *)
Fixpoint cool_loop (fuel : nat) (hw : Hardware) (targetTemp : Q) (k : nat)
    : option (list Event) :=
  match fuel with
  | O => None
  | S fuel' =>
      if Qlt_b targetTemp (getTemp hw k) then
        option_map (cons (sleep interval))
          (cool_loop fuel' hw targetTemp (S k))
      else Some []
  end.

(** [cool(parameters)]. *)
Definition cool (fuel : nat) (hw : Hardware) (parameters : Parameters)
    : option (Result unit * list Event) :=
  match p_temp parameters with
  | None => Some (Raised (KeyError "temp"), [])
  | Some targetTemp =>
      match cool_loop fuel hw targetTemp 0 with
      | Some evs =>
          Some (Returned tt, turnCoolerOn :: evs ++ [turnCoolerOff])
      | None => None
      end
  end.

(** The hardware calls of [stir] and [pump], which the other routines do
    not make, beside the common ones. *)
Inductive HardwareCall : Type :=
| common (e : Event)
| turnStirrerOn
| turnStirrerOff
| pumpDispense (pump : string) (volume : Q).



(** [pump(parameters)]. *)
Definition pump (parameters : Parameters)
    : Result unit * list HardwareCall :=
  match p_pump parameters with
  | None => (Raised (KeyError "pump"), [])
  | Some pump =>
      match p_volume parameters with
      | None => (Raised (KeyError "volume"), [])
      | Some volume => (Returned tt, [pumpDispense pump volume])
      end
  end.


(** The run of a method over the successive answers of the Task Runner. *)
Definition polls (plan : Plan) (cs : list Celery) (r : Recipe) : Recipe :=
  fold_left (fun r' c => after plan c m_updateStatus r') cs r.

(** ** Sample plans and collaborators *)

Module Samples.

Definition heatParameters : Parameters :=
  mkParameters None (Some (65 # 1)) None None None None.

Definition maintainParameters : Parameters :=
  mkParameters (Some (1 # 1)) (Some (65 # 1)) (Some (2 # 1)) (Some "heat")
    None None.

(** A Task Runner that accepts every task and reports it finished. *)
Definition willing : Celery := mkCelery true (fun _ _ _ => true).

(** A Task Runner with a task outstanding. *)
Definition busy : Celery := mkCelery false (fun _ _ _ => false).

(** Step 0 heats and goes on to step 1, the final step. *)
Definition heatThenDone : Plan :=
  mkPlan "heat then done"
    [ mkStep (Some "Heating") (Some 1) None None (Some "heat") None
        (Some heatParameters) None;
      mkStep (Some "Done") None None None None None None (Some true) ].

(** Step 0 asks a question and also names a task. *)
Definition askAndHeat : Plan :=
  mkPlan "ask and heat"
    [ mkStep (Some "Pick") None None
        (Some [mkPlanOption "Yes" 1; mkPlanOption "No" 2;
               mkPlanOption "Yes" 2])
        (Some "heat") None (Some heatParameters) None;
      mkStep (Some "Done") None None None None None None (Some true);
      mkStep (Some "Other") None (Some "inspect") None None None None
        None ].

(** Step 0 asks a question and also names a task; step 1 is the final
    step, and has no message. *)
Definition pickThenDone : Plan :=
  mkPlan "pick then done"
    [ mkStep (Some "Pick") None None (Some [mkPlanOption "Yes" 1])
        (Some "heat") None (Some heatParameters) None;
      mkStep None None None None None None None (Some true) ].

(** The scenario of the specification: a question, then a final step. *)
Definition yesNo : Plan :=
  mkPlan "yes or no"
    [ mkStep (Some "Pick") None None
        (Some [mkPlanOption "Yes" 1; mkPlanOption "No" 1])
        (Some "humanTask") None None None;
      mkStep (Some "Done") None None None None None None (Some true) ].

(** A sensor that reads 60 first and one more on each read, with a clock
    that advances half a second per reading. *)
Definition warming : Hardware :=
  mkHardware (fun k => 60 + inject_Z (Z.of_nat k))%Q
             (fun k => inject_Z (Z.of_nat k) * (1 # 2))%Q.


(** A sensor stuck at [q], with the same clock. *)
Definition steady (q : Q) : Hardware :=
  mkHardware (fun _ => q)
             (fun k => inject_Z (Z.of_nat k) * (1 # 2))%Q.

End Samples.

(** A computation is [inert] when it neither assigns [self.step] nor prints
    a ['Running step'] line. *)
Definition inert {A : Type} (m : M A) : Prop :=
  forall r, step (self (m r)) = step r /\ last_run (calls (m r)) = None.

Create HintDb inert.

(** ** Lists, events and the monad *)

Lemma last_run_app (l1 l2 : list Event) :
  last_run (l1 ++ l2) =
  match last_run l2 with
  | Some n => Some n
  | None => last_run l1
  end.
Proof.
  induction l1 as [|e l1 IH]; simpl.
  - now destruct (last_run l2).
  - rewrite IH. now destruct (last_run l2).
Qed.

Lemma last_heater_app (l1 l2 : list Event) :
  last_heater (l1 ++ l2) =
  match last_heater l2 with
  | Some b => Some b
  | None => last_heater l1
  end.
Proof.
  induction l1 as [|e l1 IH]; simpl.
  - now destruct (last_heater l2).
  - rewrite IH. now destruct (last_heater l2).
Qed.

Lemma last_cooler_app (l1 l2 : list Event) :
  last_cooler (l1 ++ l2) =
  match last_cooler l2 with
  | Some b => Some b
  | None => last_cooler l1
  end.
Proof.
  induction l1 as [|e l1 IH]; simpl.
  - now destruct (last_cooler l2).
  - rewrite IH. now destruct (last_cooler l2).
Qed.

Lemma getitem_In {A : Type} (l : list A) (i : Z) (a : A) :
  getitem l i = Some a -> In a l.
Proof.
  unfold getitem.
  destruct (0 <=? i); [|destruct (0 <=? i + _)]; try discriminate;
    apply nth_error_In.
Qed.

Lemma Qlt_b_iff (x y : Q) : Qlt_b x y = true <-> (x < y)%Q.
Proof.
  unfold Qlt_b. rewrite negb_true_iff. split.
  - intros H. apply Qnot_le_lt. intros Hle.
    apply Qle_bool_iff in Hle. congruence.
  - intros H. destruct (Qle_bool y x) eqn:E; [|reflexivity].
    apply Qle_bool_iff in E. now apply Qlt_not_le in H.
Qed.

(** The equations of [bind]. *)
Lemma bind_pure {A B : Type} (m : M A) (f : A -> M B) (r r' : Recipe)
    (a : A) :
  m r = mkOut (Returned a) r' [] -> bind m f r = f a r'.
Proof.
  intros E. unfold bind. rewrite E. simpl. now destruct (f a r').
Qed.

Lemma bind_ret {A B : Type} (a : A) (f : A -> M B) (r : Recipe) :
  bind (ret a) f r = f a r.
Proof. now apply bind_pure. Qed.

Lemma bind_get {B : Type} (f : Recipe -> M B) (r : Recipe) :
  bind get f r = f r r.
Proof. now apply bind_pure. Qed.

Lemma bind_modify {B : Type} (g : Recipe -> Recipe) (f : unit -> M B)
    (r : Recipe) :
  bind (modify g) f r = f tt (g r).
Proof. now apply bind_pure. Qed.

Lemma bind_raise {A B : Type} (e : Exn) (f : A -> M B) (r : Recipe) :
  bind (raise e) f r = mkOut (Raised e) r [].
Proof. reflexivity. Qed.

Lemma bind_call {B : Type} (e : Event) (f : unit -> M B) (r : Recipe) :
  bind (call e) f r =
  mkOut (result (f tt r)) (self (f tt r)) (e :: calls (f tt r)).
Proof. reflexivity. Qed.

Lemma bind_index {A B : Type} (l : list A) (i : Z) (a : A) (f : A -> M B)
    (r : Recipe) :
  getitem l i = Some a -> bind (index l i) f r = f a r.
Proof. intros E. apply bind_pure. unfold index. now rewrite E. Qed.

Lemma bind_key {A B : Type} (k : string) (a : A) (f : A -> M B)
    (r : Recipe) :
  bind (key k (Some a)) f r = f a r.
Proof. now apply bind_pure. Qed.

Lemma bind_assoc {A B C : Type} (m : M A) (f : A -> M B) (g : B -> M C)
    (r : Recipe) :
  bind (bind m f) g r = bind m (fun a => bind (f a) g) r.
Proof.
  unfold bind. destruct (m r) as [[a|e] r1 evs1]; simpl; [|reflexivity].
  destruct (f a r1) as [[b|e] r2 evs2]; simpl; [|reflexivity].
  now rewrite app_assoc.
Qed.

Ltac monad_eval :=
  repeat first
    [ rewrite bind_assoc | rewrite bind_get | rewrite bind_modify
    | rewrite bind_ret | rewrite bind_key | rewrite bind_call
    | rewrite bind_raise ].

Lemma inert_ret {A : Type} (a : A) : inert (ret a).
Proof. now intros r. Qed.

Lemma inert_raise {A : Type} (e : Exn) : inert (@raise A e).
Proof. now intros r. Qed.

Lemma inert_get : inert get.
Proof. now intros r. Qed.

Lemma inert_bind {A B : Type} (m : M A) (f : A -> M B) :
  inert m -> (forall a, inert (f a)) -> inert (bind m f).
Proof.
  intros Hm Hf r. unfold bind.
  destruct (Hm r) as [Hs Hc].
  destruct (result (m r)) as [a|e]; simpl; [|now split].
  destruct (Hf a (self (m r))) as [Hs' Hc'].
  rewrite last_run_app, Hc', Hc, Hs', Hs. now split.
Qed.

Lemma inert_index {A : Type} (l : list A) (i : Z) : inert (index l i).
Proof. unfold index. destruct (getitem l i); now intros r. Qed.

Lemma inert_key {A : Type} (k : string) (v : option A) : inert (key k v).
Proof. destruct v; now intros r. Qed.

Lemma inert_set_message (m : string) : inert (modify (set_message m)).
Proof. now intros r. Qed.

Lemma inert_set_status (s : Status) : inert (modify (set_status s)).
Proof. now intros r. Qed.

Lemma inert_set_options (o : list string) : inert (modify (set_options o)).
Proof. now intros r. Qed.

Lemma inert_set_icon (i : string) : inert (modify (set_icon i)).
Proof. now intros r. Qed.

Lemma inert_set_time (t : option Q) : inert (modify (set_time t)).
Proof. now intros r. Qed.

Lemma inert_runTask_call (t : string) (p : Parameters) (b : bool) :
  inert (call (runTask_call t p b)).
Proof. now intros r. Qed.

Lemma inert_getStatus : inert getStatus.
Proof. now intros r. Qed.

#[export] Hint Resolve inert_ret inert_raise inert_get inert_index inert_key
  inert_set_message inert_set_status inert_set_options inert_set_icon
  inert_set_time inert_runTask_call inert_getStatus : inert.

(** Splits an [inert] goal along the binds and the case distinctions of the
    computation. *)
Ltac inert_step :=
  match goal with
  | |- inert (bind _ _) => apply inert_bind; [|intros ?]
  | |- inert (match ?x with _ => _ end) => destruct x
  | |- inert (if ?x then _ else _) => destruct x
  | |- inert (let (_, _) := ?x in _) => destruct x
  | |- inert _ => solve [auto with inert]
  end.

Lemma inert_finish_step (s : Step) : inert (finish_step s).
Proof. unfold finish_step. repeat inert_step. Qed.

(** A computation that reads [self], prints its step and goes on inertly. *)
Lemma get_print_inert {A : Type} (K : Recipe -> M A) (r : Recipe) :
  inert (K r) ->
  let m := r0 <- get ;; call (print_running (step r0)) ;; K r0 in
  step (self (m r)) = step r /\
  last_run (calls (m r)) = Some (step r).
Proof.
  intros HK. destruct (HK r) as [Hs Hc].
  unfold bind, get, call. simpl.
  destruct (result (K r r)); simpl; rewrite Hs, Hc; now split.
Qed.

(** [runStep] prints its step first, then leaves [self.step] alone. *)
Lemma runStep_step_print (plan : Plan) (c : Celery) (r : Recipe) :
  step (self (runStep plan c r)) = step r /\
  last_run (calls (runStep plan c r)) = Some (step r).
Proof.
  unfold runStep. apply get_print_inert. cbv zeta.
  pose proof inert_finish_step. repeat inert_step.
Qed.

(** ** The poller outside of [running] *)

(** C5: when [status] is not ['running'], [updateStatus] is [getStatus]:
    it returns the status object [getStatus] returns, leaves every field of
    the object as it was, and calls neither the hardware nor the Task
    Runner. *)
Theorem updateStatus_not_running (plan : Plan) (c : Celery) (r : Recipe) :
  status r <> running ->
  updateStatus plan c r = getStatus r /\
  result (updateStatus plan c r) =
    Returned (mkStatusObject (status r) (step r) (message r) (options r)
                (icon r) (time r)) /\
  self (updateStatus plan c r) = r /\
  calls (updateStatus plan c r) = [].
Proof.
  intros H.
  assert (E : updateStatus plan c r = getStatus r).
  { unfold updateStatus, bind at 1. simpl.
    destruct (status r); try reflexivity. now elim H. }
  rewrite E. repeat split.
Qed.

Lemma updateStatus_not_running_witness :
  updateStatus Samples.askAndHeat Samples.willing init = getStatus init /\
  result (updateStatus Samples.askAndHeat Samples.willing init) =
    Returned (mkStatusObject idle 0 "" [] "" None) /\
  self (updateStatus Samples.askAndHeat Samples.willing init) = init /\
  calls (updateStatus Samples.askAndHeat Samples.willing init) = [].
Proof.
  apply (updateStatus_not_running Samples.askAndHeat Samples.willing init).
  simpl. discriminate.
Defined.

(** ** User choices *)

Lemma scan_options_no_match (os : list PlanOption) (v : string)
    (found : bool) (r : Recipe) :
  (forall o, In o os -> opt_text o <> v) ->
  scan_options os v found r = mkOut (Returned found) r [].
Proof.
  induction os as [|o os IH]; intros H; simpl; [reflexivity|].
  destruct (String.eqb_spec (opt_text o) v) as [E|_].
  - elim (H o); [now left | exact E].
  - apply IH. intros o' Ho'. apply H. now right.
Qed.

Lemma scan_options_last (l1 l2 : list PlanOption) (o : PlanOption)
    (v : string) (found : bool) (r : Recipe) :
  opt_text o = v ->
  (forall o', In o' l2 -> opt_text o' <> v) ->
  scan_options (l1 ++ o :: l2) v found r =
  mkOut (Returned true) (set_step (opt_next o) r) [].
Proof.
  intros Ho Hl2. revert found r.
  induction l1 as [|a l1 IH]; intros found r; simpl.
  - rewrite (proj2 (String.eqb_eq _ _) Ho), bind_modify.
    now apply scan_options_no_match.
  - destruct (String.eqb (opt_text a) v).
    + rewrite bind_modify. now rewrite IH.
    + apply IH.
Qed.

(** Every list with a matching option has a last one. *)
Lemma last_matching_option (os : list PlanOption) (v : string) :
  (exists o, In o os /\ opt_text o = v) ->
  exists l1 o l2,
    os = l1 ++ o :: l2 /\ opt_text o = v /\
    (forall o', In o' l2 -> opt_text o' <> v).
Proof.
  induction os as [|a os IH]; intros [o [Hin Ho]]; [now elim Hin|].
  destruct (existsb (fun o' => String.eqb (opt_text o') v) os) eqn:E.
  - apply existsb_exists in E. destruct E as [o' [Hin' Ho']].
    apply String.eqb_eq in Ho'.
    destruct IH as [l1 [o1 [l2 [E1 [E2 E3]]]]]; [now exists o'|].
    exists (a :: l1), o1, l2. rewrite E1. now repeat split.
  - assert (Hno : forall o', In o' os -> opt_text o' <> v).
    { intros o' Hin' Ho'.
      assert (X : existsb (fun o' => String.eqb (opt_text o') v) os = true).
      { apply existsb_exists. exists o'. split; [exact Hin'|].
        now apply String.eqb_eq. }
      congruence. }
    destruct Hin as [->|Hin]; [|now elim (Hno o)].
    exists [], o, os. now repeat split.
Qed.

(** C4: a choice that is the text of no option of the current step is
    refused with a message that begins with ['Invalid option'] and touches
    nothing: the object is left as it was, no call is made, and this stays
    so however often the call is repeated. *)
Theorem selectOption_invalid (plan : Plan) (c : Celery) (r : Recipe)
    (v : string) (s : Step) :
  getitem (steps plan) (step r) = Some s ->
  (forall os o, step_options s = Some os -> In o os -> opt_text o <> v) ->
  selectOption plan c v r =
    mkOut (Returned (false, String.append "Invalid option " v)) r [] /\
  (exists msg, result (selectOption plan c v r) = Returned (false, msg) /\
               String.prefix "Invalid option" msg = true) /\
  forall n, Nat.iter n (after plan c (m_selectOption v)) r = r.
Proof.
  intros Hs Hno.
  assert (E : selectOption plan c v r =
              mkOut (Returned (false, String.append "Invalid option " v))
                r []).
  { unfold selectOption. rewrite bind_get, (bind_index _ _ _ _ _ Hs).
    destruct (step_options s) as [os|] eqn:Eo.
    - rewrite (bind_pure _ _ r r false); [reflexivity|].
      apply scan_options_no_match. intros o. now apply Hno.
    - now rewrite bind_ret. }
  split; [exact E|]. split.
  - exists (String.append "Invalid option " v). rewrite E. now split.
  - induction n as [|n IH]; [reflexivity|].
    rewrite Nat.iter_succ, IH. unfold after. now rewrite E.
Qed.

Lemma selectOption_invalid_witness :
  let r := self (start Samples.askAndHeat Samples.willing init) in
  selectOption Samples.askAndHeat Samples.willing "Maybe" r =
    mkOut (Returned (false, "Invalid option Maybe")) r [] /\
  (exists msg,
     result (selectOption Samples.askAndHeat Samples.willing "Maybe" r) =
       Returned (false, msg) /\
     String.prefix "Invalid option" msg = true) /\
  forall n,
    Nat.iter n
      (after Samples.askAndHeat Samples.willing (m_selectOption "Maybe")) r
    = r.
Proof.
  intros r.
  apply (selectOption_invalid Samples.askAndHeat Samples.willing r "Maybe"
           (mkStep (Some "Pick") None None
              (Some [mkPlanOption "Yes" 1; mkPlanOption "No" 2;
                     mkPlanOption "Yes" 2])
              (Some "heat") None (Some Samples.heatParameters) None)).
  - reflexivity.
  - simpl. intros os o E Hin. injection E as <-.
    simpl in Hin.
    destruct Hin as [<-|[<-|[<-|[]]]]; simpl; discriminate.
Defined.

Lemma runStep_then_answer (plan : Plan) (c : Celery) (r : Recipe) :
  (b <- runStep plan c ;; r' <- get ;; ret (b, message r')) r =
  answer (runStep plan c r).
Proof.
  unfold bind, answer.
  destruct (runStep plan c r) as [[b|e] r' evs]; simpl; [|reflexivity].
  now rewrite app_nil_r.
Qed.

(** With the text ["Yes"] offered twice, for steps 1 and 2, the choice leads
    to step 2, from a finished recipe as well as from one awaiting input. *)
Example selectOption_duplicate_text :
  self (selectOption Samples.askAndHeat Samples.willing "Yes"
          (mkRecipe 0 "over" complete [] "" None)) =
    mkRecipe 2 "Other" complete [] "inspect" None /\
  self (selectOption Samples.askAndHeat Samples.willing "Yes"
          (mkRecipe 0 "Pick" user_input ["Yes"; "No"; "Yes"] "" None)) =
    mkRecipe 2 "Other" user_input [] "inspect" None.
Proof. split; reflexivity. Qed.

(** The specification's scenario: [start] asks, ["Yes"] completes. *)
Example yesNo_scenario :
  self (start Samples.yesNo Samples.willing init) =
    mkRecipe 0 "Pick" user_input ["Yes"; "No"] "" None /\
  selectOption Samples.yesNo Samples.willing "Yes"
    (self (start Samples.yesNo Samples.willing init)) =
    mkOut (Returned (true, "Done")) (mkRecipe 1 "Done" complete [] "" None)
      [print_running 1].
Proof. split; reflexivity. Qed.

(** ** Executing a step *)

(** [runStep] up to the dispatch decision, for a step with a message. *)
Lemma runStep_prefix (plan : Plan) (c : Celery) (r : Recipe) (s : Step)
    (m : string) :
  getitem (steps plan) (step r) = Some s ->
  step_message s = Some m ->
  runStep plan c r =
  let r1 :=
    mkRecipe (step r) m
      (if 0 <? Z.of_nat (List.length (option_texts s))
       then match step_options s with
            | Some _ => user_input
            | None => status r
            end
       else status r)
      (option_texts s) (sticky_icon s r) (time r) in
  let o :=
    match step_baseTask s with
    | Some b =>
        if negb (String.eqb b "humanTask") then
          (p <- key "parameters" (step_parameters s) ;;
           call (runTask_call (fst (task_of s b)) p (snd (task_of s b))) ;;
           if runTask c (fst (task_of s b)) p (snd (task_of s b)) then
             modify (set_status running) ;; finish_step s
           else modify (set_status error) ;; ret false) r1
        else finish_step s r1
    | None => finish_step s r1
    end in
  mkOut (result o) (self o) (print_running (step r) :: calls o).
Proof.
  intros Hs Hm. unfold runStep.
  rewrite bind_get, bind_call, (bind_index _ _ _ _ _ Hs), Hm, bind_key,
    bind_modify.
  unfold option_texts, sticky_icon, task_of. cbv zeta.
  destruct (step_options s) as [os|]; destruct (step_icon s) as [i|];
    try destruct (0 <? Z.of_nat (List.length (map opt_text os)));
    monad_eval;
    (destruct (step_baseTask s) as [b|]; [destruct (negb _)|]);
    reflexivity.
Qed.

Lemma finish_step_eq (s : Step) (r : Recipe) :
  finish_step s r =
  mkOut (Returned true)
    (mkRecipe (step r) (message r)
       (match step_done s with
        | Some true => complete
        | _ => status r
        end)
       (options r) (icon r)
       (match step_parameters s with
        | Some p => p_time p
        | None => None
        end))
    [].
Proof.
  unfold finish_step.
  destruct (step_parameters s) as [p|]; [destruct (p_time p)|];
    destruct (step_done s) as [[|]|]; reflexivity.
Qed.

(** C10: when the Task Runner refuses the task of a step, [runStep] returns
    [False] with status ['error']; [message] and [options] already hold the
    new step's values, and [icon] the new step's icon if it has one; [time]
    is the one of the step before, and the [done] flag is not looked at.
    The message is the step's own: unless the plan itself spells it, the
    text ['Internal error. Task already running.'] is not the message. *)
Theorem runStep_dispatch_conflict (plan : Plan) (c : Celery) (r : Recipe)
    (s : Step) (m b : string) (p : Parameters) :
  getitem (steps plan) (step r) = Some s ->
  step_message s = Some m ->
  step_baseTask s = Some b ->
  b <> "humanTask" ->
  step_parameters s = Some p ->
  runTask c (fst (task_of s b)) p (snd (task_of s b)) = false ->
  runStep plan c r =
    mkOut (Returned false)
      (mkRecipe (step r) m error (option_texts s) (sticky_icon s r)
         (time r))
      [print_running (step r);
       runTask_call (fst (task_of s b)) p (snd (task_of s b))] /\
  (m <> "Internal error. Task already running." ->
   message (self (runStep plan c r)) <>
     "Internal error. Task already running.").
Proof.
  intros Hs Hm Hb Hne Hp Hrefuse.
  assert (E : runStep plan c r =
    mkOut (Returned false)
      (mkRecipe (step r) m error (option_texts s) (sticky_icon s r)
         (time r))
      [print_running (step r);
       runTask_call (fst (task_of s b)) p (snd (task_of s b))]).
  { rewrite (runStep_prefix plan c r s m Hs Hm). cbv zeta.
    rewrite Hb, (proj2 (String.eqb_neq b "humanTask") Hne), Hp. simpl negb.
    cbv iota. rewrite bind_key, bind_call, Hrefuse, bind_modify.
    reflexivity. }
  split; [exact E|]. rewrite E. simpl. auto.
Qed.

Lemma runStep_dispatch_conflict_witness :
  runStep Samples.askAndHeat Samples.busy
    (mkRecipe 0 "before" idle [] "old icon" (Some (30 # 1))) =
    mkOut (Returned false)
      (mkRecipe 0 "Pick" error ["Yes"; "No"; "Yes"] "old icon"
         (Some (30 # 1)))
      [print_running 0; runTask_call "heat" Samples.heatParameters true] /\
  ("Pick" <> "Internal error. Task already running." ->
   message (self (runStep Samples.askAndHeat Samples.busy
                    (mkRecipe 0 "before" idle [] "old icon"
                       (Some (30 # 1))))) <>
     "Internal error. Task already running.").
Proof.
  apply (runStep_dispatch_conflict Samples.askAndHeat Samples.busy
           (mkRecipe 0 "before" idle [] "old icon" (Some (30 # 1)))
           (mkStep (Some "Pick") None None
              (Some [mkPlanOption "Yes" 1; mkPlanOption "No" 2;
                     mkPlanOption "Yes" 2])
              (Some "heat") None (Some Samples.heatParameters) None)
           "Pick" "heat" Samples.heatParameters).
  - reflexivity.
  - reflexivity.
  - reflexivity.
  - discriminate.
  - reflexivity.
  - reflexivity.
Defined.

(** C2, as amended: for a step with a message and a non-empty options list,
    [runStep] dispatches nothing and asks for input (status ['user_input'],
    or ['complete'] when [done] is true) only when the step names no
    [baseTask] or names ['humanTask'].  When it names another [baseTask],
    with parameters, that task is dispatched all the same, and the status
    is ['running'] (or ['complete'] when [done] is true) if the Task Runner
    accepts and ['error'] if it refuses: not ['user_input']. *)
Theorem runStep_options_and_task (plan : Plan) (c : Celery) (r : Recipe)
    (s : Step) (m : string) (os : list PlanOption) :
  getitem (steps plan) (step r) = Some s ->
  step_message s = Some m ->
  step_options s = Some os ->
  os <> [] ->
  (step_baseTask s = None \/ step_baseTask s = Some "humanTask" ->
   calls (runStep plan c r) = [print_running (step r)] /\
   status (self (runStep plan c r)) =
     match step_done s with
     | Some true => complete
     | _ => user_input
     end) /\
  (forall b p,
     step_baseTask s = Some b ->
     b <> "humanTask" ->
     step_parameters s = Some p ->
     calls (runStep plan c r) =
       [print_running (step r);
        runTask_call (fst (task_of s b)) p (snd (task_of s b))] /\
     status (self (runStep plan c r)) =
       (if runTask c (fst (task_of s b)) p (snd (task_of s b)) then
          match step_done s with
          | Some true => complete
          | _ => running
          end
        else error) /\
     status (self (runStep plan c r)) <> user_input).
Proof.
  intros Hs Hm Hos Hne.
  rewrite (runStep_prefix plan c r s m Hs Hm). cbv zeta.
  assert (Hlen : (0 <? Z.of_nat (List.length (option_texts s))) = true).
  { unfold option_texts. rewrite Hos.
    destruct os; [now elim Hne|reflexivity]. }
  rewrite Hlen, Hos. split.
  - intros [Hb|Hb]; rewrite Hb; simpl; rewrite finish_step_eq; simpl;
      (split; [reflexivity|]); now destruct (step_done s) as [[|]|].
  - intros b p Hb Hbne Hp.
    rewrite Hb, (proj2 (String.eqb_neq b "humanTask") Hbne), Hp.
    simpl negb. cbv iota. rewrite bind_key, bind_call.
    destruct (runTask c (fst (task_of s b)) p (snd (task_of s b))).
    + rewrite bind_modify, finish_step_eq. simpl.
      repeat split; destruct (step_done s) as [[|]|]; discriminate.
    + rewrite bind_modify. simpl. repeat split. discriminate.
Qed.

Lemma runStep_options_and_task_witness :
  (step_baseTask
     (mkStep (Some "Pick") None None
        (Some [mkPlanOption "Yes" 1; mkPlanOption "No" 2;
               mkPlanOption "Yes" 2])
        (Some "heat") None (Some Samples.heatParameters) None) = None \/
   step_baseTask
     (mkStep (Some "Pick") None None
        (Some [mkPlanOption "Yes" 1; mkPlanOption "No" 2;
               mkPlanOption "Yes" 2])
        (Some "heat") None (Some Samples.heatParameters) None) =
     Some "humanTask" ->
   calls (runStep Samples.askAndHeat Samples.willing init) =
     [print_running 0] /\
   status (self (runStep Samples.askAndHeat Samples.willing init)) =
     user_input) /\
  (forall b p,
     Some "heat" = Some b ->
     b <> "humanTask" ->
     Some Samples.heatParameters = Some p ->
     calls (runStep Samples.askAndHeat Samples.willing init) =
       [print_running 0; runTask_call b p true] /\
     status (self (runStep Samples.askAndHeat Samples.willing init)) =
       running /\
     status (self (runStep Samples.askAndHeat Samples.willing init)) <>
       user_input).
Proof.
  apply (runStep_options_and_task Samples.askAndHeat Samples.willing init
           (mkStep (Some "Pick") None None
              (Some [mkPlanOption "Yes" 1; mkPlanOption "No" 2;
                     mkPlanOption "Yes" 2])
              (Some "heat") None (Some Samples.heatParameters) None)
           "Pick"
           [mkPlanOption "Yes" 1; mkPlanOption "No" 2;
            mkPlanOption "Yes" 2]).
  - reflexivity.
  - reflexivity.
  - reflexivity.
  - discriminate.
Defined.

(** C2 fails as stated: step 0 of [askAndHeat] has three options and the
    [baseTask] ['heat']; executing it hands ['heat'] to the Task Runner and
    leaves the status ['running']. *)
Lemma runStep_options_still_dispatch :
  getitem (steps Samples.askAndHeat) (step init) =
    Some (mkStep (Some "Pick") None None
            (Some [mkPlanOption "Yes" 1; mkPlanOption "No" 2;
                   mkPlanOption "Yes" 2])
            (Some "heat") None (Some Samples.heatParameters) None) /\
  runStep Samples.askAndHeat Samples.willing init =
    mkOut (Returned true)
      (mkRecipe 0 "Pick" running ["Yes"; "No"; "Yes"] "" None)
      [print_running 0; runTask_call "heat" Samples.heatParameters true] /\
  ~ (status (self (runStep Samples.askAndHeat Samples.willing init)) =
       user_input /\
     existsb is_runTask
       (calls (runStep Samples.askAndHeat Samples.willing init)) = false).
Proof.
  split; [reflexivity|]. split; [reflexivity|].
  intros [H _]. discriminate H.
Qed.

(** ** The poller at a final step *)

(** The ordinary way to the final step: the poll that finds the task of
    step 0 complete executes step 1, and it is [runStep] that declares the
    recipe complete. *)
Example heatThenDone_run :
  self (start Samples.heatThenDone Samples.willing init) =
    mkRecipe 0 "Heating" running [] "" None /\
  updateStatus Samples.heatThenDone Samples.willing
    (mkRecipe 0 "Heating" running [] "" None) =
    mkOut (Returned (mkStatusObject complete 1 "Done" [] "" None))
      (mkRecipe 1 "Done" complete [] "" None)
      [isTaskComplete_call; print_running 1].
Proof. split; reflexivity. Qed.

(** X28: the [done] branch of [updateStatus] is [stop].  Called with status
    ['running'] on a step whose [done] flag is true, a poll that finds the
    task complete leaves the status ['idle'], [step] -1, [message],
    [options] and [time] cleared and [icon] kept, after commanding heater
    off and cooler off. *)
Theorem updateStatus_done_stops (plan : Plan) (c : Celery) (r : Recipe)
    (s : Step) :
  status r = running ->
  isTaskComplete c = true ->
  getitem (steps plan) (step r) = Some s ->
  step_done s = Some true ->
  updateStatus plan c r =
    mkOut (Returned (mkStatusObject idle (-1) "" [] (icon r) None))
      (stopped r)
      [isTaskComplete_call; turnHeaterOff; turnCoolerOff].
Proof.
  intros Hst Hc Hs Hd. unfold updateStatus.
  rewrite bind_get, Hst, bind_call, Hc, (bind_index _ _ _ _ _ Hs), Hd.
  reflexivity.
Qed.

Lemma updateStatus_done_stops_witness :
  updateStatus Samples.pickThenDone Samples.willing
    (mkRecipe 1 "Pick" running ["Yes"] "" None) =
    mkOut (Returned (mkStatusObject idle (-1) "" [] "" None))
      (stopped (mkRecipe 1 "Pick" running ["Yes"] "" None))
      [isTaskComplete_call; turnHeaterOff; turnCoolerOff].
Proof.
  apply (updateStatus_done_stops Samples.pickThenDone Samples.willing
           (mkRecipe 1 "Pick" running ["Yes"] "" None)
           (mkStep None None None None None None None (Some true)));
    reflexivity.
Defined.

(** A run that takes that branch, on a plan whose final step lacks its
    message.  With the plan [pickThenDone], [start] dispatches the task of
    step 0 and [selectOption "Yes"] moves to step 1, whose execution raises
    [KeyError] for the missing message: the object is at the final step
    with status ['running'], message ["Pick"] and options [["Yes"]].  The
    next poll finds the task complete and the step done, and leaves status
    ['idle'], an empty message and no options. *)
Example updateStatus_done_not_complete :
  let r := mkRecipe 1 "Pick" running ["Yes"] "" None in
  reachable Samples.pickThenDone r
    [print_running 0; runTask_call "heat" Samples.heatParameters true;
     print_running 1] /\
  status r = running /\
  isTaskComplete Samples.willing = true /\
  getitem (steps Samples.pickThenDone) (step r) =
    Some (mkStep None None None None None None None (Some true)) /\
  self (updateStatus Samples.pickThenDone Samples.willing r) =
    mkRecipe (-1) "" idle [] "" None /\
  ~ (status (self (updateStatus Samples.pickThenDone Samples.willing r)) =
       complete /\
     message (self (updateStatus Samples.pickThenDone Samples.willing r)) =
       message r /\
     options (self (updateStatus Samples.pickThenDone Samples.willing r)) =
       options r).
Proof.
  intros r. split.
  - exact (reachable_call Samples.pickThenDone _ _ Samples.willing
             (m_selectOption "Yes")
             (reachable_call Samples.pickThenDone _ _ Samples.willing
                m_start (reachable_init Samples.pickThenDone))).
  - repeat split. intros [H _]. discriminate H.
Qed.

(** ** The step pointer along a run *)

Lemma bind_index_none {A B : Type} (l : list A) (i : Z) (f : A -> M B)
    (r : Recipe) :
  getitem l i = None -> bind (index l i) f r = mkOut (Raised IndexError) r [].
Proof. intros E. unfold bind, index. now rewrite E. Qed.

(** A continuation that only reads does not show in the object or in the
    calls. *)
Lemma bind_reader {A B : Type} (m : M A) (k : A -> M B) (r : Recipe) :
  (forall a r', self (k a r') = r' /\ calls (k a r') = []) ->
  self (bind m k r) = self (m r) /\ calls (bind m k r) = calls (m r).
Proof.
  intros Hk. unfold bind.
  destruct (m r) as [[a|e] r' evs]; simpl; [|now split].
  destruct (Hk a r') as [-> ->]. now rewrite app_nil_r.
Qed.

Lemma scan_options_shape (os : list PlanOption) (v : string) (found : bool)
    (r : Recipe) :
  exists b r',
    scan_options os v found r = mkOut (Returned b) r' [] /\
    ((b = found /\ r' = r) \/
     (b = true /\ exists o, In o os /\ r' = set_step (opt_next o) r)).
Proof.
  revert found r. induction os as [|o os IH]; intros found r; simpl.
  - exists found, r. split; [reflexivity | now left].
  - destruct (String.eqb (opt_text o) v).
    + rewrite bind_modify.
      destruct (IH true (set_step (opt_next o) r))
        as [b [r' [E [[-> ->]|[-> [o' [Hin ->]]]]]]];
        rewrite E; eexists; eexists; (split; [reflexivity|]); right;
        (split; [reflexivity|]).
      * exists o. split; [now left | reflexivity].
      * exists o'. split; [now right | reflexivity].
    + destruct (IH found r)
        as [b [r' [E [[-> ->]|[-> [o' [Hin ->]]]]]]];
        rewrite E; eexists; eexists; (split; [reflexivity|]).
      * now left.
      * right. split; [reflexivity|]. exists o'. split; [now right|].
        reflexivity.
Qed.

(** What one method call does to the step pointer: nothing; or the reset of
    [stop]; or the execution of a step, which is step 0 for [start] and
    otherwise a [next] or an option target of the step left. *)
Lemma method_outcome (plan : Plan) (c : Celery) (m : Method) (r : Recipe) :
  (step (after plan c m r) = step r /\
   status (after plan c m r) = status r /\
   last_run (emitted plan c m r) = None) \/
  (step (after plan c m r) = -1 /\ status (after plan c m r) = idle) \/
  (last_run (emitted plan c m r) = Some (step (after plan c m r)) /\
   (step (after plan c m r) = 0 \/
    exists s,
      getitem (steps plan) (step r) = Some s /\
      (step_next s = Some (step (after plan c m r)) \/
       exists os o,
         step_options s = Some os /\ In o os /\
         step (after plan c m r) = opt_next o))).
Proof.
  destruct m as [| | | |v]; unfold after, emitted.
  - (* start *)
    right; right. unfold start. rewrite bind_modify.
    destruct (bind_reader (runStep plan c) (fun _ => ret tt)
                (set_step 0 r)) as [-> ->]; [now intros|].
    destruct (runStep_step_print plan c (set_step 0 r)) as [-> ->].
    split; [reflexivity | now left].
  - (* stop *)
    right; left. now split.
  - (* getStatus *)
    left. now repeat split.
  - (* updateStatus *)
    unfold updateStatus. rewrite bind_get.
    destruct (status r) eqn:Hst; try (left; now repeat split).
    rewrite bind_call.
    destruct (isTaskComplete c); [|left; now repeat split].
    destruct (getitem (steps plan) (step r)) as [s|] eqn:Hs;
      [|rewrite (bind_index_none _ _ _ _ Hs); left; now repeat split].
    rewrite (bind_index _ _ _ _ _ Hs).
    destruct (step_done s) as [[|]|]; [right; left; now split| |];
      (destruct (step_next s) as [n|] eqn:Hn; [|left; now repeat split];
       right; right; rewrite bind_modify;
       destruct (bind_reader (runStep plan c) (fun _ => getStatus)
                   (set_step n r)) as [-> ->]; [now intros|];
       destruct (runStep_step_print plan c (set_step n r)) as [H1 H2];
       cbn [self calls last_run]; rewrite H1, H2;
       split; [reflexivity|]; right; exists s;
       split; [reflexivity | left; exact Hn]).
  - (* selectOption *)
    unfold selectOption. rewrite bind_get.
    destruct (getitem (steps plan) (step r)) as [s|] eqn:Hs;
      [|rewrite (bind_index_none _ _ _ _ Hs); left; now repeat split].
    rewrite (bind_index _ _ _ _ _ Hs).
    destruct (step_options s) as [os|] eqn:Hos;
      [|rewrite bind_ret; left; now repeat split].
    destruct (scan_options_shape os v false r)
      as [b [r' [E [[-> ->]|[-> [o [Hin ->]]]]]]];
      rewrite (bind_pure _ _ _ _ _ E); [left; now repeat split|].
    right; right. cbv beta. change (negb true) with false. cbv iota.
    rewrite runStep_then_answer. unfold answer.
    destruct (runStep_step_print plan c (set_step (opt_next o) r))
      as [H1 H2].
    destruct (result (runStep plan c (set_step (opt_next o) r)));
      cbn [self calls]; rewrite H1, H2; (split; [reflexivity|]); right; exists s;
      (split; [reflexivity|]); right; exists os, o; now repeat split.
Qed.

Lemma last_run_quiet (log evs : list Event) :
  last_run evs = None -> last_run (log ++ evs) = last_run log.
Proof. intros H. now rewrite last_run_app, H. Qed.

Lemma last_run_new (log evs : list Event) (n : Z) :
  last_run evs = Some n -> last_run (log ++ evs) = Some n.
Proof. intros H. now rewrite last_run_app, H. Qed.

Lemma closed_yesNo : closed Samples.yesNo.
Proof.
  split; [discriminate|].
  intros s [<-|[<-|[]]]; split; simpl; try discriminate.
  intros os o E Hin. injection E as <-.
  destruct Hin as [<-|[<-|[]]]; unfold valid_id; simpl; lia.
Qed.

(** C3, as amended: in every reachable state, [getStatus().step] is -1 with
    status ['idle'] (the value [stop] assigns), or 0 while no step has been
    executed, or the id of the last step whose execution was started.  It
    is therefore -1 or a position of the steps array whenever the array is
    not empty and all [next] and option targets of the plan are positions
    of it. *)
Theorem step_follows_run (plan : Plan) (r : Recipe) (log : list Event) :
  reachable plan r log ->
  ((step r = -1 /\ status r = idle) \/
   (last_run log = None /\ step r = 0) \/
   last_run log = Some (step r)) /\
  (closed plan -> step r = -1 \/ valid_id plan (step r)).
Proof.
  induction 1 as [|r log c m Hreach [IH1 IH2]].
  - split; [right; left; now split|].
    intros [Hne _]. right. unfold valid_id. simpl.
    destruct (steps plan); [now elim Hne | simpl; lia].
  - destruct (method_outcome plan c m r)
      as [[Hs [Hst Hq]]|[[Hs Hst]|[Hp Hfrom]]].
    + split.
      * rewrite Hs, Hst, (last_run_quiet _ _ Hq). exact IH1.
      * rewrite Hs. exact IH2.
    + split; [left; now split | intros _; now left].
    + split; [right; right; now apply last_run_new|].
      intros Hcl. right. destruct Hcl as [Hne Hcl].
      destruct Hfrom as [->|[s [Hs [Hn|[os [o [Hos [Hin ->]]]]]]]].
      * unfold valid_id.
        destruct (steps plan); [now elim Hne | simpl; lia].
      * apply getitem_In in Hs. now apply (proj1 (Hcl s Hs)).
      * apply getitem_In in Hs. now apply (proj2 (Hcl s Hs) os o).
Qed.

Lemma step_follows_run_witness :
  ((step (mkRecipe (-1) "" idle [] "" None) = -1 /\
    status (mkRecipe (-1) "" idle [] "" None) = idle) \/
   (last_run [print_running 0; turnHeaterOff; turnCoolerOff] = None /\
    step (mkRecipe (-1) "" idle [] "" None) = 0) \/
   last_run [print_running 0; turnHeaterOff; turnCoolerOff] =
     Some (step (mkRecipe (-1) "" idle [] "" None))) /\
  (step (mkRecipe (-1) "" idle [] "" None) = -1 \/
   valid_id Samples.yesNo (step (mkRecipe (-1) "" idle [] "" None))).
Proof.
  destruct (step_follows_run Samples.yesNo
              (mkRecipe (-1) "" idle [] "" None)
              [print_running 0; turnHeaterOff; turnCoolerOff]
              (reachable_call Samples.yesNo _ _ Samples.willing m_stop
                 (reachable_call Samples.yesNo _ _ Samples.willing m_start
                    (reachable_init Samples.yesNo))))
    as [H1 H2].
  split; [exact H1 | exact (H2 closed_yesNo)].
Defined.

(** C3 fails as stated: after [start] and [stop] on the plan [yesNo], the
    last step executed is step 0, while [getStatus().step] is -1, which is
    not a position of the two-step array. *)
Lemma step_dangling_after_stop :
  let r := mkRecipe (-1) "" idle [] "" None in
  let log := [print_running 0; turnHeaterOff; turnCoolerOff] in
  reachable Samples.yesNo r log /\
  last_run log = Some 0 /\
  result (getStatus r) =
    Returned (mkStatusObject idle (-1) "" [] "" None) /\
  ~ valid_id Samples.yesNo (-1) /\
  ~ (last_run log = Some (step r) /\ valid_id Samples.yesNo (step r)).
Proof.
  intros r log. split.
  - exact (reachable_call Samples.yesNo _ _ Samples.willing m_stop
             (reachable_call Samples.yesNo _ _ Samples.willing m_start
                (reachable_init Samples.yesNo))).
  - repeat split.
    + unfold valid_id. simpl. lia.
    + intros [H _]. discriminate H.
Qed.

(** ** The control routines *)

Lemma Qlt_b_false (x y : Q) : Qlt_b x y = false <-> ~ (x < y)%Q.
Proof.
  rewrite <- Qlt_b_iff. destruct (Qlt_b x y); split; intros H;
    try discriminate; try reflexivity; now elim H.
Qed.

(** C6: one tick of a heat-type [maintain] with target 65 and tolerance 2
    commands heater off at 67.1, heater on at 62.9 and nothing at 64 or at
    66, alone and inside a one-tick run of [maintain]; and for every type,
    target, tolerance and reading the command of the upper band is issued
    iff reading - tolerance > target, the one of the lower band iff
    reading + tolerance < target, the difference and the sum being those of
    Python's floats. *)
Theorem maintain_tick_bands :
  maintain_tick "heat" (65 # 1) (2 # 1) (671 # 10) = [turnHeaterOff] /\
  maintain_tick "heat" (65 # 1) (2 # 1) (629 # 10) = [turnHeaterOn] /\
  maintain_tick "heat" (65 # 1) (2 # 1) (64 # 1) = [] /\
  maintain_tick "heat" (65 # 1) (2 # 1) (66 # 1) = [] /\
  maintain 2 (Samples.steady (671 # 10)) Samples.maintainParameters =
    Some (Returned tt,
          [sleep interval; turnHeaterOff; turnHeaterOff; turnCoolerOff]) /\
  maintain 2 (Samples.steady (629 # 10)) Samples.maintainParameters =
    Some (Returned tt,
          [sleep interval; turnHeaterOn; turnHeaterOff; turnCoolerOff]) /\
  maintain 2 (Samples.steady (64 # 1)) Samples.maintainParameters =
    Some (Returned tt, [sleep interval; turnHeaterOff; turnCoolerOff]) /\
  maintain 2 (Samples.steady (66 # 1)) Samples.maintainParameters =
    Some (Returned tt, [sleep interval; turnHeaterOff; turnCoolerOff]) /\
  forall (type : string) (targetTemp tolerance currentTemp : Q),
    (In (off_command type)
        (maintain_tick type targetTemp tolerance currentTemp) <->
     PrimFloat.ltb (to_float targetTemp)
       (PrimFloat.sub (to_float currentTemp) (to_float tolerance)) = true)
    /\
    (In (on_command type)
        (maintain_tick type targetTemp tolerance currentTemp) <->
     PrimFloat.ltb
       (PrimFloat.add (to_float currentTemp) (to_float tolerance))
       (to_float targetTemp) = true).
Proof.
  repeat (split; [vm_compute; reflexivity|]).
  intros type targetTemp tolerance currentTemp.
  unfold maintain_tick, off_command, on_command.
  fold (above_band targetTemp tolerance currentTemp).
  fold (below_band targetTemp tolerance currentTemp).
  destruct (above_band targetTemp tolerance currentTemp);
    destruct (below_band targetTemp tolerance currentTemp);
    destruct (String.eqb type "heat"); simpl; split; split;
    intros H; try reflexivity; try (now left); try (now right; left);
    repeat match goal with
      | H : _ \/ _ |- _ => destruct H
      | H : False |- _ => elim H
      | H : _ = _ |- _ => discriminate H
      end.
Qed.

(** The sum is the float sum: with target 64.9 and tolerance 2.1 a reading
    of 62.8 is below the band, since 62.8 + 2.1 is 64.89999999999999 in
    binary64, and the heater is switched on. *)
Example maintain_tick_rounds :
  maintain_tick "heat" (649 # 10) (21 # 10) (628 # 10) = [turnHeaterOn].
Proof. vm_compute. reflexivity. Qed.

Lemma maintain_loop_terminates (hw : Hardware) (start duration : Q)
    (targetTemp tolerance : Q) (type : string) (n : nat) :
  forall k,
    ~ (secondSinceStart hw (S (k + n)) - start < duration)%Q ->
    exists evs,
      maintain_loop (S n) hw start duration targetTemp tolerance type k =
        Some evs.
Proof.
  induction n as [|n IH]; intros k Hend.
  - rewrite Nat.add_0_r in Hend. apply Qlt_b_false in Hend.
    simpl. rewrite Hend. now exists [].
  - cbn [maintain_loop].
    destruct (Qlt_b (secondSinceStart hw (S k) - start) duration);
      [|now exists []].
    destruct (IH (S k)) as [evs E].
    { now replace (S k + n)%nat with (k + S n)%nat by lia. }
    cbn [maintain_loop] in E. rewrite E. simpl. eauto.
Qed.

(** C7: whatever the parameters and the readings, a run of [maintain] that
    leaves its loop ends with the commands heater off, cooler off, so the
    last command to each of the two is off; and the loop is left as soon as
    the clock shows that [time] seconds have passed. *)
Theorem maintain_exit_off (hw : Hardware) (parameters : Parameters) :
  (forall fuel evs,
     maintain fuel hw parameters = Some (Returned tt, evs) ->
     (exists evs', evs = evs' ++ [turnHeaterOff; turnCoolerOff]) /\
     last_heater evs = Some false /\
     last_cooler evs = Some false) /\
  (forall duration targetTemp tolerance type n,
     p_time parameters = Some duration ->
     p_temp parameters = Some targetTemp ->
     p_tolerance parameters = Some tolerance ->
     p_type parameters = Some type ->
     ~ (secondSinceStart hw (S n) - secondSinceStart hw 0 < duration)%Q ->
     exists evs, maintain (S n) hw parameters = Some (Returned tt, evs)).
Proof.
  split.
  - intros fuel evs. unfold maintain.
    destruct (p_time parameters) as [duration|]; [|discriminate].
    destruct (p_temp parameters) as [targetTemp|]; [|discriminate].
    destruct (p_tolerance parameters) as [tolerance|]; [|discriminate].
    destruct (p_type parameters) as [type|]; [|discriminate].
    cbv zeta.
    destruct (maintain_loop fuel hw _ duration targetTemp tolerance type 0)
      as [evs'|]; [|discriminate].
    intros E. injection E as <-.
    split; [now exists evs'|].
    now rewrite last_heater_app, last_cooler_app.
  - intros duration targetTemp tolerance type n Ht Hp Htol Hty Hend.
    unfold maintain. rewrite Ht, Hp, Htol, Hty. cbv zeta.
    destruct (maintain_loop_terminates hw (secondSinceStart hw 0) duration
                targetTemp tolerance type n 0 Hend) as [evs E].
    rewrite E. eauto.
Qed.

Lemma maintain_exit_off_witness :
  ((exists evs',
      [sleep interval; turnCoolerOn; turnHeaterOff; turnCoolerOff] =
      evs' ++ [turnHeaterOff; turnCoolerOff]) /\
   last_heater [sleep interval; turnCoolerOn; turnHeaterOff; turnCoolerOff]
     = Some false /\
   last_cooler [sleep interval; turnCoolerOn; turnHeaterOff; turnCoolerOff]
     = Some false) /\
  (exists evs,
     maintain 2 (Samples.steady (671 # 10))
       (set_type "cool" Samples.maintainParameters) =
     Some (Returned tt, evs)).
Proof.
  destruct (maintain_exit_off (Samples.steady (671 # 10))
              (set_type "cool" Samples.maintainParameters)) as [H1 H2].
  split.
  - apply (H1 2%nat). reflexivity.
  - apply (H2 (1 # 1) (65 # 1) (2 # 1) "cool" 1%nat); try reflexivity.
    vm_compute. intros H. discriminate H.
Defined.

(** The wrappers overwrite ['type'] before they delegate. *)
Example maintainHeat_sets_type :
  maintainHeat 2 (Samples.steady (629 # 10))
    (set_type "cool" Samples.maintainParameters) =
    Some (Returned tt,
          [sleep interval; turnHeaterOn; turnHeaterOff; turnCoolerOff]) /\
  maintainCool 2 (Samples.steady (629 # 10)) Samples.maintainParameters =
    Some (Returned tt,
          [sleep interval; turnCoolerOff; turnHeaterOff; turnCoolerOff]).
Proof. split; reflexivity. Qed.

Lemma heat_loop_terminates (hw : Hardware) (targetTemp : Q) (n : nat) :
  forall k,
    (targetTemp <= getTemp hw (k + n))%Q ->
    exists evs,
      heat_loop (S n) hw targetTemp k = Some evs /\
      (ticks evs <= n)%nat /\
      last_heater evs = None.
Proof.
  induction n as [|n IH]; intros k Hreached.
  - rewrite Nat.add_0_r in Hreached.
    apply Qle_not_lt, Qlt_b_false in Hreached.
    simpl. rewrite Hreached. exists []. now repeat split.
  - cbn [heat_loop].
    destruct (Qlt_b (getTemp hw k) targetTemp);
      [|exists []; split; [reflexivity|]; split; [|reflexivity];
        unfold ticks; simpl; lia].
    destruct (IH (S k)) as [evs [E [Ht Hh]]].
    { now replace (S k + n)%nat with (k + S n)%nat by lia. }
    cbn [heat_loop] in E. rewrite E.
    exists (sleep interval :: evs). repeat split.
    + unfold ticks in *. simpl. lia.
    + simpl. now rewrite Hh.
Qed.

(** C8: against a sensor that reads 60 and then one more on every read,
    [heat] with target 65 returns, given room for six readings or more,
    after heater on, exactly five sleeps and heater off.  In general [heat]
    returns as soon as a reading is at or above the target: if the reading
    number [n] is, it has slept at most [n] times, and it ends with heater
    off. *)
Theorem heat_reaches_target :
  (forall fuel,
     (6 <= fuel)%nat ->
     heat fuel Samples.warming Samples.heatParameters =
       Some (Returned tt,
             [turnHeaterOn; sleep interval; sleep interval; sleep interval;
              sleep interval; sleep interval; turnHeaterOff]) /\
     ticks [turnHeaterOn; sleep interval; sleep interval; sleep interval;
            sleep interval; sleep interval; turnHeaterOff] = 5%nat) /\
  (forall hw parameters targetTemp n,
     p_temp parameters = Some targetTemp ->
     (targetTemp <= getTemp hw n)%Q ->
     exists evs,
       heat (S n) hw parameters = Some (Returned tt, evs) /\
       (ticks evs <= n)%nat /\
       last_heater evs = Some false /\
       exists evs', evs = turnHeaterOn :: evs' ++ [turnHeaterOff]).
Proof.
  split.
  - intros fuel Hfuel.
    do 6 (destruct fuel as [|fuel]; [lia|]).
    split; reflexivity.
  - intros hw parameters targetTemp n Hp Hreached.
    destruct (heat_loop_terminates hw targetTemp n 0 Hreached)
      as [evs [E [Ht Hh]]].
    unfold heat. rewrite Hp, E.
    exists (turnHeaterOn :: evs ++ [turnHeaterOff]). repeat split.
    + unfold ticks in *. simpl. rewrite filter_app, length_app. simpl. lia.
    + change (turnHeaterOn :: evs ++ [turnHeaterOff])
        with ([turnHeaterOn] ++ evs ++ [turnHeaterOff]).
      now rewrite !last_heater_app.
    + now exists evs.
Qed.

Lemma heat_reaches_target_witness :
  (heat 6 Samples.warming Samples.heatParameters =
     Some (Returned tt,
           [turnHeaterOn; sleep interval; sleep interval; sleep interval;
            sleep interval; sleep interval; turnHeaterOff]) /\
   ticks [turnHeaterOn; sleep interval; sleep interval; sleep interval;
          sleep interval; sleep interval; turnHeaterOff] = 5%nat) /\
  (exists evs,
     heat 6 Samples.warming Samples.heatParameters =
       Some (Returned tt, evs) /\
     (ticks evs <= 5)%nat /\
     last_heater evs = Some false /\
     exists evs', evs = turnHeaterOn :: evs' ++ [turnHeaterOff]).
Proof.
  destruct heat_reaches_target as [H1 H2]. split.
  - apply (H1 6%nat). lia.
  - apply (H2 Samples.warming Samples.heatParameters (65 # 1) 5%nat).
    + reflexivity.
    + vm_compute. intros H. discriminate H.
Defined.


(** ** [runStep] in closed form *)

(** The outcome of [runStep], case by case. *)
Lemma runStep_outcome (plan : Plan) (c : Celery) (r : Recipe) :
  runStep plan c r =
  match getitem (steps plan) (step r) with
  | None => mkOut (Raised IndexError) r [print_running (step r)]
  | Some s =>
      match step_message s with
      | None =>
          mkOut (Raised (KeyError "message")) r [print_running (step r)]
      | Some m =>
          match dispatches s with
          | None =>
              mkOut (Returned true) (finished s (entered s m r))
                [print_running (step r)]
          | Some b =>
              match step_parameters s with
              | None =>
                  mkOut (Raised (KeyError "parameters")) (entered s m r)
                    [print_running (step r)]
              | Some p =>
                  if runTask c (fst (task_of s b)) p (snd (task_of s b))
                  then
                    mkOut (Returned true)
                      (finished s (set_status running (entered s m r)))
                      [print_running (step r);
                       runTask_call (fst (task_of s b)) p
                         (snd (task_of s b))]
                  else
                    mkOut (Returned false)
                      (set_status error (entered s m r))
                      [print_running (step r);
                       runTask_call (fst (task_of s b)) p
                         (snd (task_of s b))]
              end
          end
      end
  end.
Proof.
  destruct (getitem (steps plan) (step r)) as [s|] eqn:Hs.
  - destruct (step_message s) as [m|] eqn:Hm.
    + rewrite (runStep_prefix plan c r s m Hs Hm). cbv zeta.
      assert (Hent :
        mkRecipe (step r) m
          (if 0 <? Z.of_nat (List.length (option_texts s))
           then match step_options s with
                | Some _ => user_input
                | None => status r
                end
           else status r)
          (option_texts s) (sticky_icon s r) (time r) = entered s m r).
      { unfold entered, option_texts.
        now destruct (step_options s) as [[|o os]|]. }
      rewrite Hent. unfold dispatches.
      destruct (step_baseTask s) as [b|];
        [destruct (negb (String.eqb b "humanTask"))|];
        try (rewrite finish_step_eq; reflexivity).
      destruct (step_parameters s) as [p|] eqn:Hp;
        [|reflexivity].
      rewrite bind_key, bind_call.
      destruct (runTask c (fst (task_of s b)) p (snd (task_of s b)));
        rewrite bind_modify; [|reflexivity].
      rewrite finish_step_eq. unfold finished. now rewrite Hp.
    + unfold runStep.
      now rewrite bind_get, bind_call, (bind_index _ _ _ _ _ Hs), Hm.
  - unfold runStep.
    now rewrite bind_get, bind_call, (bind_index_none _ _ _ _ Hs).
Qed.

(** C9: [selectOption] does not look at [status].  Whatever the state, when
    some option of the current step has the chosen text, the options list
    splits around its last such option [o], and the call assigns
    [opt_next o] to [self.step] and runs that step, answering with the
    outcome of [runStep] and the message it left.  Running the step shows:
    the call prints ['Running step'] for [opt_next o] first; it raises
    [IndexError] if the plan has no such step; and if the step is there
    with a message, the message, options and icon become that step's, its
    task if any is handed to the Task Runner, and the status and the answer
    are those of the step. *)
Theorem selectOption_last_match (plan : Plan) (c : Celery) (r : Recipe)
    (v : string) (s : Step) (os : list PlanOption) :
  getitem (steps plan) (step r) = Some s ->
  step_options s = Some os ->
  (exists o, In o os /\ opt_text o = v) ->
  exists l1 o l2,
    os = l1 ++ o :: l2 /\
    opt_text o = v /\
    (forall o', In o' l2 -> opt_text o' <> v) /\
    selectOption plan c v r =
      answer (runStep plan c (set_step (opt_next o) r)) /\
    step (self (selectOption plan c v r)) = opt_next o /\
    (exists rest,
       calls (selectOption plan c v r) =
         print_running (opt_next o) :: rest) /\
    (getitem (steps plan) (opt_next o) = None ->
     selectOption plan c v r =
       mkOut (Raised IndexError) (set_step (opt_next o) r)
         [print_running (opt_next o)]) /\
    forall s' m,
      getitem (steps plan) (opt_next o) = Some s' ->
      step_message s' = Some m ->
      message (self (selectOption plan c v r)) = m /\
      options (self (selectOption plan c v r)) = option_texts s' /\
      icon (self (selectOption plan c v r)) = sticky_icon s' r /\
      match dispatches s' with
      | None =>
          result (selectOption plan c v r) = Returned (true, m) /\
          calls (selectOption plan c v r) = [print_running (opt_next o)] /\
          status (self (selectOption plan c v r)) =
            match step_done s', option_texts s' with
            | Some true, _ => complete
            | _, _ :: _ => user_input
            | _, [] => status r
            end
      | Some b =>
          match step_parameters s' with
          | None =>
              result (selectOption plan c v r) =
                Raised (KeyError "parameters") /\
              calls (selectOption plan c v r) =
                [print_running (opt_next o)]
          | Some p =>
              calls (selectOption plan c v r) =
                [print_running (opt_next o);
                 runTask_call (fst (task_of s' b)) p (snd (task_of s' b))]
              /\
              result (selectOption plan c v r) =
                Returned
                  (runTask c (fst (task_of s' b)) p (snd (task_of s' b)),
                   m) /\
              status (self (selectOption plan c v r)) =
                if runTask c (fst (task_of s' b)) p (snd (task_of s' b))
                then match step_done s' with
                     | Some true => complete
                     | _ => running
                     end
                else error
          end
      end.
Proof.
  intros Hs Hos Hex.
  destruct (last_matching_option os v Hex) as [l1 [o [l2 [E [Ho Hl2]]]]].
  assert (X : selectOption plan c v r =
              answer (runStep plan c (set_step (opt_next o) r))).
  { unfold selectOption.
    rewrite bind_get, (bind_index _ _ _ _ _ Hs), Hos.
    rewrite (bind_pure _ _ r (set_step (opt_next o) r) true)
      by (rewrite E; now apply scan_options_last).
    apply runStep_then_answer. }
  exists l1, o, l2.
  split; [exact E|]. split; [exact Ho|]. split; [exact Hl2|].
  split; [exact X|].
  rewrite X, runStep_outcome. cbn [step set_step].
  destruct (getitem (steps plan) (opt_next o)) as [s'|];
    [|split; [reflexivity|]; split; [now exists []|];
      split; [reflexivity | intros s' m H; discriminate H]].
  split; [|split; [|split; [intros H; discriminate H|]]].
  - destruct (step_message s') as [m|]; [|reflexivity].
    destruct (dispatches s') as [b|]; [|reflexivity].
    destruct (step_parameters s') as [p|]; [|reflexivity].
    now destruct (runTask c (fst (task_of s' b)) p (snd (task_of s' b))).
  - destruct (step_message s') as [m|]; [|now exists []].
    destruct (dispatches s') as [b|]; [|now exists []].
    destruct (step_parameters s') as [p|]; [|now exists []].
    destruct (runTask c (fst (task_of s' b)) p (snd (task_of s' b)));
      eexists; reflexivity.
  - intros s0 m Hs0 Hm. injection Hs0 as <-. rewrite Hm.
    destruct (dispatches s') as [b|].
    + destruct (step_parameters s') as [p|] eqn:Hp.
      * destruct (runTask c (fst (task_of s' b)) p (snd (task_of s' b)));
          unfold answer, finished, entered; simpl; repeat split.
      * unfold answer, entered; simpl. repeat split.
    + unfold answer, finished, entered; simpl. repeat split.
      now destruct (step_done s') as [[|]|]; destruct (option_texts s').
Qed.

Lemma selectOption_last_match_witness :
  let r := mkRecipe 0 "over" complete [] "" None in
  exists l1 o l2,
    [mkPlanOption "Yes" 1; mkPlanOption "No" 2; mkPlanOption "Yes" 2] =
      l1 ++ o :: l2 /\
    opt_text o = "Yes" /\
    (forall o', In o' l2 -> opt_text o' <> "Yes") /\
    selectOption Samples.askAndHeat Samples.willing "Yes" r =
      answer (runStep Samples.askAndHeat Samples.willing
                (set_step (opt_next o) r)) /\
    step (self (selectOption Samples.askAndHeat Samples.willing "Yes" r)) =
      opt_next o /\
    (exists rest,
       calls (selectOption Samples.askAndHeat Samples.willing "Yes" r) =
         print_running (opt_next o) :: rest) /\
    (getitem (steps Samples.askAndHeat) (opt_next o) = None ->
     selectOption Samples.askAndHeat Samples.willing "Yes" r =
       mkOut (Raised IndexError) (set_step (opt_next o) r)
         [print_running (opt_next o)]) /\
    forall s' m,
      getitem (steps Samples.askAndHeat) (opt_next o) = Some s' ->
      step_message s' = Some m ->
      message (self (selectOption Samples.askAndHeat Samples.willing "Yes"
                       r)) = m /\
      options (self (selectOption Samples.askAndHeat Samples.willing "Yes"
                       r)) = option_texts s' /\
      icon (self (selectOption Samples.askAndHeat Samples.willing "Yes" r))
        = sticky_icon s' r /\
      match dispatches s' with
      | None =>
          result (selectOption Samples.askAndHeat Samples.willing "Yes" r)
            = Returned (true, m) /\
          calls (selectOption Samples.askAndHeat Samples.willing "Yes" r) =
            [print_running (opt_next o)] /\
          status (self (selectOption Samples.askAndHeat Samples.willing
                          "Yes" r)) =
            match step_done s', option_texts s' with
            | Some true, _ => complete
            | _, _ :: _ => user_input
            | _, [] => status r
            end
      | Some b =>
          match step_parameters s' with
          | None =>
              result (selectOption Samples.askAndHeat Samples.willing "Yes"
                        r) = Raised (KeyError "parameters") /\
              calls (selectOption Samples.askAndHeat Samples.willing "Yes"
                       r) = [print_running (opt_next o)]
          | Some p =>
              calls (selectOption Samples.askAndHeat Samples.willing "Yes"
                       r) =
                [print_running (opt_next o);
                 runTask_call (fst (task_of s' b)) p (snd (task_of s' b))]
              /\
              result (selectOption Samples.askAndHeat Samples.willing "Yes"
                        r) =
                Returned
                  (runTask Samples.willing (fst (task_of s' b)) p
                     (snd (task_of s' b)), m) /\
              status (self (selectOption Samples.askAndHeat Samples.willing
                              "Yes" r)) =
                if runTask Samples.willing (fst (task_of s' b)) p
                     (snd (task_of s' b))
                then match step_done s' with
                     | Some true => complete
                     | _ => running
                     end
                else error
          end
      end.
Proof.
  intros r.
  apply (selectOption_last_match Samples.askAndHeat Samples.willing r "Yes"
           (mkStep (Some "Pick") None None
              (Some [mkPlanOption "Yes" 1; mkPlanOption "No" 2;
                     mkPlanOption "Yes" 2])
              (Some "heat") None (Some Samples.heatParameters) None)).
  - reflexivity.
  - reflexivity.
  - exists (mkPlanOption "Yes" 1). split; [now left | reflexivity].
Defined.

Lemma getitem_none_iff {A : Type} (l : list A) (i : Z) :
  getitem l i = None <->
  ~ (- Z.of_nat (List.length l) <= i < Z.of_nat (List.length l)).
Proof.
  unfold getitem.
  destruct (Z.leb_spec 0 i);
    [|destruct (Z.leb_spec 0 (i + Z.of_nat (List.length l)))];
    rewrite ?nth_error_None; try lia.
  split; [lia | reflexivity].
Qed.

(** X1: [runStep] raises [IndexError] exactly when [self.step] is outside
    the range a Python list accepts, from minus the length of the steps
    array up to the length excluded; it has then printed its line and
    changed nothing. *)
Theorem runStep_index_error (plan : Plan) (c : Celery) (r : Recipe) :
  (result (runStep plan c r) = Raised IndexError <->
   ~ (- Z.of_nat (List.length (steps plan)) <= step r
      < Z.of_nat (List.length (steps plan)))) /\
  (result (runStep plan c r) = Raised IndexError ->
   self (runStep plan c r) = r /\
   calls (runStep plan c r) = [print_running (step r)]).
Proof.
  rewrite <- getitem_none_iff, runStep_outcome.
  destruct (getitem (steps plan) (step r)) as [s|].
  - assert (H : result
      match step_message s with
      | None =>
          mkOut (Raised (KeyError "message")) r [print_running (step r)]
      | Some m =>
          match dispatches s with
          | None =>
              mkOut (Returned true) (finished s (entered s m r))
                [print_running (step r)]
          | Some b =>
              match step_parameters s with
              | None =>
                  mkOut (Raised (KeyError "parameters")) (entered s m r)
                    [print_running (step r)]
              | Some p =>
                  if runTask c (fst (task_of s b)) p (snd (task_of s b))
                  then
                    mkOut (Returned true)
                      (finished s (set_status running (entered s m r)))
                      [print_running (step r);
                       runTask_call (fst (task_of s b)) p
                         (snd (task_of s b))]
                  else
                    mkOut (Returned false)
                      (set_status error (entered s m r))
                      [print_running (step r);
                       runTask_call (fst (task_of s b)) p
                         (snd (task_of s b))]
              end
          end
      end <> Raised IndexError).
    { destruct (step_message s); [|discriminate].
      destruct (dispatches s) as [b|]; [|discriminate].
      destruct (step_parameters s) as [p|]; [|discriminate].
      destruct (runTask c _ p _); discriminate. }
    split; [split; intros H'; [now elim H | discriminate]|].
    intros H'. now elim H.
  - now repeat split.
Qed.

(** X2: on a step without ['message'], [runStep] raises [KeyError] for that
    key right after printing, and the object is left as it was. *)
Theorem runStep_missing_message (plan : Plan) (c : Celery) (r : Recipe)
    (s : Step) :
  getitem (steps plan) (step r) = Some s ->
  step_message s = None ->
  runStep plan c r =
    mkOut (Raised (KeyError "message")) r [print_running (step r)].
Proof. intros Hs Hm. now rewrite runStep_outcome, Hs, Hm. Qed.

Lemma runStep_missing_message_witness :
  runStep Samples.pickThenDone Samples.willing
    (mkRecipe 1 "Pick" running ["Yes"] "" None) =
    mkOut (Raised (KeyError "message"))
      (mkRecipe 1 "Pick" running ["Yes"] "" None) [print_running 1].
Proof.
  apply (runStep_missing_message Samples.pickThenDone Samples.willing
           (mkRecipe 1 "Pick" running ["Yes"] "" None)
           (mkStep None None None None None None None (Some true)));
    reflexivity.
Defined.

Lemma dispatches_some (s : Step) (b : string) :
  step_baseTask s = Some b -> b <> "humanTask" -> dispatches s = Some b.
Proof.
  intros Hb Hne. unfold dispatches.
  now rewrite Hb, (proj2 (String.eqb_neq b "humanTask") Hne).
Qed.

Lemma dispatches_none (s : Step) :
  step_baseTask s = None \/ step_baseTask s = Some "humanTask" ->
  dispatches s = None.
Proof. unfold dispatches. now intros [->| ->]. Qed.

(** X3: on a step that names a task but has no ['parameters'], [runStep]
    raises [KeyError] for that key without calling the Task Runner.  The
    message, the options and the icon are already those of the new step and
    the status is already ['user_input'] if the step has options; the time
    and, without options, the status are those of before. *)
Theorem runStep_missing_parameters (plan : Plan) (c : Celery) (r : Recipe)
    (s : Step) (m b : string) :
  getitem (steps plan) (step r) = Some s ->
  step_message s = Some m ->
  step_baseTask s = Some b ->
  b <> "humanTask" ->
  step_parameters s = None ->
  runStep plan c r =
    mkOut (Raised (KeyError "parameters"))
      (mkRecipe (step r) m
         (match option_texts s with
          | [] => status r
          | _ :: _ => user_input
          end)
         (option_texts s) (sticky_icon s r) (time r))
      [print_running (step r)].
Proof.
  intros Hs Hm Hb Hne Hp.
  rewrite runStep_outcome, Hs, Hm, (dispatches_some s b Hb Hne), Hp.
  unfold entered. now destruct (option_texts s).
Qed.

Lemma runStep_missing_parameters_witness :
  runStep
    (mkPlan "no parameters"
       [mkStep (Some "Heat?") None (Some "temperature")
          (Some [mkPlanOption "Go" 0]) (Some "heat") None None None])
    Samples.willing init =
    mkOut (Raised (KeyError "parameters"))
      (mkRecipe 0 "Heat?" user_input ["Go"] "temperature" None)
      [print_running 0].
Proof.
  apply (runStep_missing_parameters
           (mkPlan "no parameters"
              [mkStep (Some "Heat?") None (Some "temperature")
                 (Some [mkPlanOption "Go" 0]) (Some "heat") None None
                 None])
           Samples.willing init
           (mkStep (Some "Heat?") None (Some "temperature")
              (Some [mkPlanOption "Go" 0]) (Some "heat") None None None)
           "Heat?" "heat"); try reflexivity.
  discriminate.
Defined.

(** X4: on a step that names no task (no ['baseTask'], or ['humanTask']),
    [runStep] returns [True] after its print and no other call.  The status
    is ['complete'] if [done] is true, else ['user_input'] if the step has
    options, else the status of before: a plain message step does not
    change the status.  The time is the ['time'] of the parameters, or
    empty. *)
Theorem runStep_without_task (plan : Plan) (c : Celery) (r : Recipe)
    (s : Step) (m : string) :
  getitem (steps plan) (step r) = Some s ->
  step_message s = Some m ->
  step_baseTask s = None \/ step_baseTask s = Some "humanTask" ->
  runStep plan c r =
    mkOut (Returned true)
      (mkRecipe (step r) m
         (match step_done s, option_texts s with
          | Some true, _ => complete
          | _, _ :: _ => user_input
          | _, [] => status r
          end)
         (option_texts s) (sticky_icon s r)
         (match step_parameters s with
          | Some p => p_time p
          | None => None
          end))
      [print_running (step r)].
Proof.
  intros Hs Hm Hb.
  rewrite runStep_outcome, Hs, Hm, (dispatches_none s Hb).
  unfold finished, entered. simpl.
  now destruct (step_done s) as [[|]|]; destruct (option_texts s).
Qed.

Lemma runStep_without_task_witness :
  runStep Samples.askAndHeat Samples.busy
    (mkRecipe 2 "Pick" error ["Yes"; "No"; "Yes"] "" (Some (5 # 1))) =
    mkOut (Returned true) (mkRecipe 2 "Other" error [] "inspect" None)
      [print_running 2].
Proof.
  apply (runStep_without_task Samples.askAndHeat Samples.busy
           (mkRecipe 2 "Pick" error ["Yes"; "No"; "Yes"] ""
              (Some (5 # 1)))
           (mkStep (Some "Other") None (Some "inspect") None None None
              None None) "Other");
    try reflexivity.
  now left.
Defined.

(** X5: when the Task Runner accepts the task of a step, [runStep] returns
    [True] after exactly one [runTask] call, made with ['task'] and
    [base=False] if the step has a ['task'] and with ['baseTask'] and
    [base=True] otherwise.  The status is ['running'], or ['complete'] if
    [done] is true, whether or not the step has options; the time is the
    ['time'] of the parameters. *)
Theorem runStep_dispatch_accepted (plan : Plan) (c : Celery) (r : Recipe)
    (s : Step) (m b : string) (p : Parameters) :
  getitem (steps plan) (step r) = Some s ->
  step_message s = Some m ->
  step_baseTask s = Some b ->
  b <> "humanTask" ->
  step_parameters s = Some p ->
  runTask c (fst (task_of s b)) p (snd (task_of s b)) = true ->
  runStep plan c r =
    mkOut (Returned true)
      (mkRecipe (step r) m
         (match step_done s with
          | Some true => complete
          | _ => running
          end)
         (option_texts s) (sticky_icon s r) (p_time p))
      [print_running (step r);
       runTask_call
         (match step_task s with Some t => t | None => b end) p
         (match step_task s with Some _ => false | None => true end)].
Proof.
  intros Hs Hm Hb Hne Hp Hok.
  rewrite runStep_outcome, Hs, Hm, (dispatches_some s b Hb Hne), Hp, Hok.
  unfold finished, entered, task_of. rewrite Hp. simpl.
  now destruct (step_task s); destruct (step_done s) as [[|]|].
Qed.

Lemma runStep_dispatch_accepted_witness :
  runStep
    (mkPlan "custom task"
       [mkStep (Some "Hold") None None None (Some "maintain")
          (Some "holdWarm") (Some Samples.maintainParameters) None])
    Samples.willing init =
    mkOut (Returned true)
      (mkRecipe 0 "Hold" running [] "" (Some (1 # 1)))
      [print_running 0;
       runTask_call "holdWarm" Samples.maintainParameters false].
Proof.
  apply (runStep_dispatch_accepted
           (mkPlan "custom task"
              [mkStep (Some "Hold") None None None (Some "maintain")
                 (Some "holdWarm") (Some Samples.maintainParameters) None])
           Samples.willing init
           (mkStep (Some "Hold") None None None (Some "maintain")
              (Some "holdWarm") (Some Samples.maintainParameters) None)
           "Hold" "maintain" Samples.maintainParameters);
    try reflexivity.
  discriminate.
Defined.

(** X6: [runStep] prints once and then calls the Task Runner at most once,
    and nothing else; it returns [False] only when [runTask] has just
    refused, and the status is then ['error']. *)
Theorem runStep_calls_and_failure (plan : Plan) (c : Celery) (r : Recipe) :
  (calls (runStep plan c r) = [print_running (step r)] \/
   exists t p b,
     calls (runStep plan c r) = [print_running (step r); runTask_call t p b])
  /\
  (result (runStep plan c r) = Returned false ->
   status (self (runStep plan c r)) = error /\
   exists t p b,
     calls (runStep plan c r) =
       [print_running (step r); runTask_call t p b] /\
     runTask c t p b = false).
Proof.
  rewrite runStep_outcome.
  destruct (getitem (steps plan) (step r)) as [s|];
    [|split; [now left | discriminate]].
  destruct (step_message s) as [m|]; [|split; [now left | discriminate]].
  destruct (dispatches s) as [b|]; [|split; [now left | discriminate]].
  destruct (step_parameters s) as [p|];
    [|split; [now left | discriminate]].
  destruct (runTask c (fst (task_of s b)) p (snd (task_of s b))) eqn:Hrun.
  - split; [right; do 3 eexists; reflexivity | discriminate].
  - split; [right; do 3 eexists; reflexivity|].
    intros _. split; [reflexivity|].
    do 3 eexists. split; [reflexivity | exact Hrun].
Qed.

(** ** Polling, starting and stopping *)

Lemma polls_fixed (plan : Plan) (cs : list Celery) (r : Recipe) :
  (forall c, In c cs -> self (updateStatus plan c r) = r) ->
  polls plan cs r = r.
Proof.
  unfold polls. induction cs as [|c cs IH]; intros H; [reflexivity|].
  cbn [fold_left].
  change (after plan c m_updateStatus r) with (self (updateStatus plan c r)).
  rewrite (H c) by now left.
  apply IH. intros c' Hin. apply H. now right.
Qed.

(** X7: while the task is still running, a poll asks the Task Runner once,
    changes nothing and returns the current status; so any number of such
    polls leaves the object as it was. *)
Theorem updateStatus_pending (plan : Plan) (cs : list Celery) (r : Recipe) :
  status r = running ->
  (forall c, In c cs -> isTaskComplete c = false) ->
  (forall c, In c cs ->
     updateStatus plan c r =
       mkOut (Returned (mkStatusObject running (step r) (message r)
                          (options r) (icon r) (time r)))
         r [isTaskComplete_call]) /\
  polls plan cs r = r.
Proof.
  intros Hst Hcs.
  assert (E : forall c, In c cs ->
     updateStatus plan c r =
       mkOut (Returned (mkStatusObject running (step r) (message r)
                          (options r) (icon r) (time r)))
         r [isTaskComplete_call]).
  { intros c Hin. unfold updateStatus.
    rewrite bind_get, Hst, bind_call, (Hcs c Hin). unfold getStatus.
    rewrite bind_get. simpl. now rewrite Hst. }
  split; [exact E|].
  apply polls_fixed. intros c Hin. now rewrite (E c Hin).
Qed.

Lemma updateStatus_pending_witness :
  (forall c, In c [Samples.busy; Samples.busy] ->
     updateStatus Samples.heatThenDone c
       (mkRecipe 0 "Heating" running [] "" None) =
       mkOut (Returned (mkStatusObject running 0 "Heating" [] "" None))
         (mkRecipe 0 "Heating" running [] "" None)
         [isTaskComplete_call]) /\
  polls Samples.heatThenDone [Samples.busy; Samples.busy]
    (mkRecipe 0 "Heating" running [] "" None) =
    mkRecipe 0 "Heating" running [] "" None.
Proof.
  apply (updateStatus_pending Samples.heatThenDone
           [Samples.busy; Samples.busy]
           (mkRecipe 0 "Heating" running [] "" None)).
  - reflexivity.
  - intros c [<-|[<-|[]]]; reflexivity.
Defined.

(** X8: when the poll finds the task complete at a step that is not done
    and has a ['next'], it assigns that id to [self.step] and runs the
    step.  The object and the calls are those of [runStep]; the poll
    returns the new status whether [runStep] returned [True] or [False],
    so a refused dispatch shows only as status ['error'], and it raises
    what [runStep] raises. *)
Theorem updateStatus_advances (plan : Plan) (c : Celery) (r : Recipe)
    (s : Step) (n : Z) :
  status r = running ->
  isTaskComplete c = true ->
  getitem (steps plan) (step r) = Some s ->
  step_done s <> Some true ->
  step_next s = Some n ->
  let o := runStep plan c (set_step n r) in
  self (updateStatus plan c r) = self o /\
  calls (updateStatus plan c r) = isTaskComplete_call :: calls o /\
  step (self (updateStatus plan c r)) = n /\
  result (updateStatus plan c r) =
    match result o with
    | Returned _ =>
        Returned (mkStatusObject (status (self o)) n (message (self o))
                    (options (self o)) (icon (self o)) (time (self o)))
    | Raised e => Raised e
    end.
Proof.
  intros Hst Hc Hs Hd Hn o.
  assert (E : updateStatus plan c r =
    mkOut (result ((runStep plan c ;; getStatus) (set_step n r)))
          (self ((runStep plan c ;; getStatus) (set_step n r)))
          (isTaskComplete_call ::
           calls ((runStep plan c ;; getStatus) (set_step n r)))).
  { unfold updateStatus.
    rewrite bind_get, Hst, bind_call, Hc, (bind_index _ _ _ _ _ Hs), Hn.
    destruct (step_done s) as [[|]|]; [now elim Hd| |];
      now rewrite bind_modify. }
  rewrite E. cbn [self calls result].
  destruct (runStep_step_print plan c (set_step n r)) as [Hstep _].
  fold o in Hstep. unfold bind. fold o.
  destruct o as [[b|e] r' evs]; cbn [self calls result] in *.
  - rewrite app_nil_r. repeat split; try exact Hstep.
    unfold getStatus, bind. simpl. simpl in Hstep. now rewrite Hstep.
  - now repeat split.
Qed.

Lemma updateStatus_advances_witness :
  let o := runStep Samples.heatThenDone Samples.willing
             (set_step 1 (mkRecipe 0 "Heating" running [] "" None)) in
  self (updateStatus Samples.heatThenDone Samples.willing
          (mkRecipe 0 "Heating" running [] "" None)) = self o /\
  calls (updateStatus Samples.heatThenDone Samples.willing
           (mkRecipe 0 "Heating" running [] "" None)) =
    isTaskComplete_call :: calls o /\
  step (self (updateStatus Samples.heatThenDone Samples.willing
                (mkRecipe 0 "Heating" running [] "" None))) = 1 /\
  result (updateStatus Samples.heatThenDone Samples.willing
            (mkRecipe 0 "Heating" running [] "" None)) =
    match result o with
    | Returned _ =>
        Returned (mkStatusObject (status (self o)) 1 (message (self o))
                    (options (self o)) (icon (self o)) (time (self o)))
    | Raised e => Raised e
    end.
Proof.
  apply (updateStatus_advances Samples.heatThenDone Samples.willing
           (mkRecipe 0 "Heating" running [] "" None)
           (mkStep (Some "Heating") (Some 1) None None (Some "heat") None
              (Some Samples.heatParameters) None) 1);
    try reflexivity.
  discriminate.
Defined.

(** X9: a running step that is not done and has no ['next'] is never left
    by polling: whatever the Task Runner answers, and however often it is
    asked, the object stays as it is, with status ['running']. *)
Theorem updateStatus_no_next_stuck (plan : Plan) (cs : list Celery)
    (r : Recipe) (s : Step) :
  status r = running ->
  getitem (steps plan) (step r) = Some s ->
  step_done s <> Some true ->
  step_next s = None ->
  polls plan cs r = r /\
  forall c, result (updateStatus plan c r) =
    Returned (mkStatusObject running (step r) (message r) (options r)
                (icon r) (time r)).
Proof.
  intros Hst Hs Hd Hn.
  assert (E : forall c, updateStatus plan c r =
     mkOut (Returned (mkStatusObject running (step r) (message r)
                        (options r) (icon r) (time r)))
       r [isTaskComplete_call]).
  { intros c. unfold updateStatus.
    rewrite bind_get, Hst, bind_call.
    destruct (isTaskComplete c).
    - rewrite (bind_index _ _ _ _ _ Hs), Hn.
      destruct (step_done s) as [[|]|]; [now elim Hd| |];
        unfold getStatus; rewrite bind_get; simpl; now rewrite Hst.
    - unfold getStatus. rewrite bind_get. simpl. now rewrite Hst. }
  split.
  - apply polls_fixed. intros c _. now rewrite E.
  - intros c. now rewrite E.
Qed.

Lemma updateStatus_no_next_stuck_witness :
  polls Samples.askAndHeat [Samples.willing; Samples.busy; Samples.willing]
    (mkRecipe 0 "Pick" running ["Yes"; "No"; "Yes"] "" None) =
    mkRecipe 0 "Pick" running ["Yes"; "No"; "Yes"] "" None /\
  forall c,
    result (updateStatus Samples.askAndHeat c
              (mkRecipe 0 "Pick" running ["Yes"; "No"; "Yes"] "" None)) =
    Returned (mkStatusObject running 0 "Pick" ["Yes"; "No"; "Yes"] ""
                None).
Proof.
  apply (updateStatus_no_next_stuck Samples.askAndHeat
           [Samples.willing; Samples.busy; Samples.willing]
           (mkRecipe 0 "Pick" running ["Yes"; "No"; "Yes"] "" None)
           (mkStep (Some "Pick") None None
              (Some [mkPlanOption "Yes" 1; mkPlanOption "No" 2;
                     mkPlanOption "Yes" 2])
              (Some "heat") None (Some Samples.heatParameters) None));
    try reflexivity.
  discriminate.
Defined.

(** X10: with status ['running'] and [self.step] outside the steps array,
    a poll that finds the task complete raises [IndexError] after asking
    the Task Runner and changes nothing, so that every later such poll
    raises again. *)
Theorem updateStatus_dangling (plan : Plan) (c : Celery) (r : Recipe) :
  status r = running ->
  isTaskComplete c = true ->
  ~ (- Z.of_nat (List.length (steps plan)) <= step r
     < Z.of_nat (List.length (steps plan))) ->
  updateStatus plan c r = mkOut (Raised IndexError) r [isTaskComplete_call].
Proof.
  intros Hst Hc Hout. apply getitem_none_iff in Hout.
  unfold updateStatus.
  now rewrite bind_get, Hst, bind_call, Hc, (bind_index_none _ _ _ _ Hout).
Qed.

Lemma updateStatus_dangling_witness :
  updateStatus Samples.heatThenDone Samples.willing
    (mkRecipe 7 "Heating" running [] "" None) =
    mkOut (Raised IndexError) (mkRecipe 7 "Heating" running [] "" None)
      [isTaskComplete_call].
Proof.
  apply (updateStatus_dangling Samples.heatThenDone Samples.willing
           (mkRecipe 7 "Heating" running [] "" None)).
  - reflexivity.
  - reflexivity.
  - simpl. lia.
Defined.

(** X11: [start] assigns 0 to [self.step] and runs that step from whatever
    state the object is in, resetting nothing else first.  It returns
    [None] when [runStep] returns, also when [runStep] returned [False],
    and raises what [runStep] raises; with an empty steps array that is
    [IndexError], the step pointer being left at 0. *)
Theorem start_runs_step_0 (plan : Plan) (c : Celery) (r : Recipe) :
  let o := runStep plan c (set_step 0 r) in
  self (start plan c r) = self o /\
  calls (start plan c r) = calls o /\
  step (self (start plan c r)) = 0 /\
  result (start plan c r) =
    match result o with
    | Returned _ => Returned tt
    | Raised e => Raised e
    end /\
  (steps plan = [] ->
   start plan c r =
     mkOut (Raised IndexError) (set_step 0 r) [print_running 0]).
Proof.
  intros o.
  assert (E : start plan c r = (runStep plan c ;; ret tt) (set_step 0 r)).
  { unfold start. now rewrite bind_modify. }
  destruct (runStep_step_print plan c (set_step 0 r)) as [Hstep _].
  fold o in Hstep.
  assert (Hempty : steps plan = [] ->
            o = mkOut (Raised IndexError) (set_step 0 r) [print_running 0]).
  { intros Hnil. unfold o. rewrite runStep_outcome, Hnil. reflexivity. }
  rewrite E. unfold bind. fold o.
  destruct o as [[b|e] r' evs]; cbn [self calls result] in *.
  - rewrite app_nil_r. repeat split; try exact Hstep.
    intros Hnil. discriminate (Hempty Hnil).
  - repeat split; try exact Hstep.
    intros Hnil. specialize (Hempty Hnil).
    injection Hempty as -> -> ->. reflexivity.
Qed.

(** X12: [stop] never raises; it resets the object and commands heater off
    and then cooler off, nothing else: the Task Runner is not called.  A
    second [stop] resets to the same object, and polling a stopped recipe
    changes nothing whatever the Task Runner would answer. *)
Theorem stop_quiesces (plan : Plan) (cs : list Celery) (r : Recipe) :
  stop r =
    mkOut (Returned tt) (mkRecipe (-1) "" idle [] (icon r) None)
      [turnHeaterOff; turnCoolerOff] /\
  self (stop (self (stop r))) = self (stop r) /\
  polls plan cs (self (stop r)) = self (stop r) /\
  forall c, calls (updateStatus plan c (self (stop r))) = [].
Proof.
  repeat split.
  - apply polls_fixed. intros c _. reflexivity.
Qed.




Lemma runStep_index_error_witness :
  result (runStep Samples.heatThenDone Samples.willing
            (mkRecipe 2 "Heating" running [] "" None)) = Raised IndexError /\
  self (runStep Samples.heatThenDone Samples.willing
          (mkRecipe 2 "Heating" running [] "" None)) =
    mkRecipe 2 "Heating" running [] "" None /\
  calls (runStep Samples.heatThenDone Samples.willing
           (mkRecipe 2 "Heating" running [] "" None)) = [print_running 2].
Proof.
  destruct (runStep_index_error Samples.heatThenDone Samples.willing
              (mkRecipe 2 "Heating" running [] "" None)) as [H1 H2].
  assert (H : result (runStep Samples.heatThenDone Samples.willing
                        (mkRecipe 2 "Heating" running [] "" None)) =
              Raised IndexError).
  { apply H1. simpl. lia. }
  split; [exact H | exact (H2 H)].
Defined.

Lemma runStep_calls_and_failure_witness :
  status (self (runStep Samples.askAndHeat Samples.busy init)) = error /\
  exists t p b,
    calls (runStep Samples.askAndHeat Samples.busy init) =
      [print_running (step init); runTask_call t p b] /\
    runTask Samples.busy t p b = false.
Proof.
  destruct (runStep_calls_and_failure Samples.askAndHeat Samples.busy init)
    as [_ H].
  apply H. reflexivity.
Defined.

Lemma start_runs_step_0_witness :
  start (mkPlan "empty" []) Samples.willing
    (mkRecipe 3 "Done" complete [] "" None) =
    mkOut (Raised IndexError) (mkRecipe 0 "Done" complete [] "" None)
      [print_running 0].
Proof.
  destruct (start_runs_step_0 (mkPlan "empty" []) Samples.willing
              (mkRecipe 3 "Done" complete [] "" None))
    as [_ [_ [_ [_ H]]]].
  apply H. reflexivity.
Defined.

(** ** What the state machine keeps along every run *)

(** A method call changes nothing, or resets as [stop] does, or ends in the
    execution of some step. *)
Lemma method_shape (plan : Plan) (c : Celery) (m : Method) (r : Recipe) :
  (after plan c m r = r /\
   (emitted plan c m r = [] \/ emitted plan c m r = [isTaskComplete_call]))
  \/
  (after plan c m r = stopped r /\
   (emitted plan c m r = [turnHeaterOff; turnCoolerOff] \/
    emitted plan c m r =
      [isTaskComplete_call; turnHeaterOff; turnCoolerOff]))
  \/
  (exists n pre,
     after plan c m r = self (runStep plan c (set_step n r)) /\
     emitted plan c m r = pre ++ calls (runStep plan c (set_step n r)) /\
     (pre = [] \/ pre = [isTaskComplete_call])).
Proof.
  destruct m as [| | | |v]; unfold after, emitted.
  - right; right. exists 0, []. unfold start. rewrite bind_modify.
    destruct (bind_reader (runStep plan c) (fun _ => ret tt)
                (set_step 0 r)) as [-> ->]; [now intros|].
    repeat split. now left.
  - right; left. split; [reflexivity | now left].
  - left. split; [reflexivity | now left].
  - unfold updateStatus. rewrite bind_get.
    destruct (status r) eqn:Hst;
      try (left; split; [reflexivity | now left]).
    rewrite bind_call.
    destruct (isTaskComplete c);
      [|left; split; [reflexivity | now right]].
    destruct (getitem (steps plan) (step r)) as [s|] eqn:Hs;
      [|rewrite (bind_index_none _ _ _ _ Hs); left;
        split; [reflexivity | now right]].
    rewrite (bind_index _ _ _ _ _ Hs).
    destruct (step_done s) as [[|]|];
      [right; left; split; [reflexivity | now right]| |];
      (destruct (step_next s) as [n|];
       [|left; split; [reflexivity | now right]];
       right; right; exists n, [isTaskComplete_call];
       rewrite bind_modify;
       destruct (bind_reader (runStep plan c) (fun _ => getStatus)
                   (set_step n r)) as [-> ->]; [now intros|];
       repeat split; now right).
  - unfold selectOption. rewrite bind_get.
    destruct (getitem (steps plan) (step r)) as [s|] eqn:Hs;
      [|rewrite (bind_index_none _ _ _ _ Hs); left;
        split; [reflexivity | now left]].
    rewrite (bind_index _ _ _ _ _ Hs).
    destruct (step_options s) as [os|];
      [|rewrite bind_ret; left; split; [reflexivity | now left]].
    destruct (scan_options_shape os v false r)
      as [b [r' [E [[-> ->]|[-> [o [Hin ->]]]]]]];
      rewrite (bind_pure _ _ _ _ _ E);
      [left; split; [reflexivity | now left]|].
    right; right. exists (opt_next o), [].
    cbv beta. change (negb true) with false. cbv iota.
    rewrite runStep_then_answer. unfold answer.
    destruct (result (runStep plan c (set_step (opt_next o) r)));
      repeat split; now left.
Qed.

Lemma runStep_recipe_calls (plan : Plan) (c : Celery) (r : Recipe) :
  forallb recipe_call (calls (runStep plan c r)) = true.
Proof.
  rewrite runStep_outcome.
  destruct (getitem (steps plan) (step r)) as [s|]; [|reflexivity].
  destruct (step_message s) as [m|]; [|reflexivity].
  destruct (dispatches s) as [b|]; [|reflexivity].
  destruct (step_parameters s) as [p|]; [|reflexivity].
  now destruct (runTask c (fst (task_of s b)) p (snd (task_of s b))).
Qed.

(** X14: the state machine itself never switches anything on and never
    sleeps: along every run its calls are prints, polls and dispatches to
    the Task Runner, and the heater-off and cooler-off commands of [stop].
    Heater on, cooler on and [sleep] occur in no reachable log. *)
Theorem recipe_never_switches_on (plan : Plan) (r : Recipe)
    (log : list Event) :
  reachable plan r log ->
  forallb recipe_call log = true /\
  ~ In turnHeaterOn log /\
  ~ In turnCoolerOn log /\
  forall seconds, ~ In (sleep seconds) log.
Proof.
  intros Hreach.
  assert (H : forallb recipe_call log = true).
  { induction Hreach as [|r log c m Hreach IH]; [reflexivity|].
    rewrite forallb_app, IH. simpl.
    destruct (method_shape plan c m r)
      as [[_ [-> | ->]]|[[_ [-> | ->]]|[n [pre [_ [-> Hpre]]]]]];
      try reflexivity.
    rewrite forallb_app, runStep_recipe_calls.
    now destruct Hpre as [-> | ->]. }
  split; [exact H|].
  rewrite forallb_forall in H.
  repeat split; intros; intros Hin; apply H in Hin; discriminate Hin.
Qed.

Lemma recipe_never_switches_on_witness :
  forallb recipe_call
    [print_running 0; turnHeaterOff; turnCoolerOff] = true /\
  ~ In turnHeaterOn [print_running 0; turnHeaterOff; turnCoolerOff] /\
  ~ In turnCoolerOn [print_running 0; turnHeaterOff; turnCoolerOff] /\
  forall seconds,
    ~ In (sleep seconds) [print_running 0; turnHeaterOff; turnCoolerOff].
Proof.
  apply (recipe_never_switches_on Samples.yesNo
           (mkRecipe (-1) "" idle [] "" None)).
  exact (reachable_call Samples.yesNo _ _ Samples.willing m_stop
           (reachable_call Samples.yesNo _ _ Samples.willing m_start
              (reachable_init Samples.yesNo))).
Defined.

Lemma runStep_from_plan (plan : Plan) (c : Celery) (r : Recipe) :
  from_plan plan r -> from_plan plan (self (runStep plan c r)).
Proof.
  intros H. rewrite runStep_outcome.
  destruct (getitem (steps plan) (step r)) as [s|] eqn:Hs; [|exact H].
  apply getitem_In in Hs.
  destruct (step_message s) as [m|] eqn:Hm; [|exact H].
  destruct H as [_ [_ [Hicon Htime]]].
  assert (Hent : forall st, from_plan plan
            (mkRecipe (step r) m st (option_texts s) (sticky_icon s r)
               (time r))).
  { intros st. repeat split; simpl.
    - right. now exists s.
    - right. now exists s.
    - unfold sticky_icon. destruct (step_icon s) as [i|] eqn:Hi;
        [right; now exists s | exact Hicon].
    - exact Htime. }
  assert (Hfin : forall st, from_plan plan
            (mkRecipe (step r) m st (option_texts s) (sticky_icon s r)
               (match step_parameters s with
                | Some p => p_time p
                | None => None
                end))).
  { intros st. destruct (Hent st) as [H1 [H2 [H3 _]]].
    repeat split; try assumption. simpl.
    destruct (step_parameters s) as [p|] eqn:Hp; [|now left].
    right. now exists s, p. }
  destruct (dispatches s) as [b|]; [|apply Hfin].
  destruct (step_parameters s) as [p|] eqn:Hp; [|apply Hent].
  destruct (runTask c (fst (task_of s b)) p (snd (task_of s b)));
    [|apply Hent].
  unfold finished. cbn [self step message status options icon set_status
                        entered].
  rewrite Hp. apply Hfin.
Qed.

(** X15: along every run the fields shown to the user come from the plan:
    the message is empty or the message of a step, the options are empty
    or the option texts of a step, the icon is empty or the icon of a step,
    and the time is empty or the ['time'] of a step's parameters. *)
Theorem fields_come_from_plan (plan : Plan) (r : Recipe)
    (log : list Event) :
  reachable plan r log -> from_plan plan r.
Proof.
  induction 1 as [|r log c m Hreach IH].
  - repeat split; now left.
  - destruct (method_shape plan c m r)
      as [[-> _]|[[-> _]|[n [pre [-> _]]]]].
    + exact IH.
    + destruct IH as [_ [_ [Hicon _]]].
      repeat split; try (now left). exact Hicon.
    + apply runStep_from_plan. exact IH.
Qed.

Lemma fields_come_from_plan_witness :
  from_plan Samples.pickThenDone (mkRecipe 1 "Pick" running ["Yes"] "" None).
Proof.
  apply (fields_come_from_plan Samples.pickThenDone
           (mkRecipe 1 "Pick" running ["Yes"] "" None)
           [print_running 0;
            runTask_call "heat" Samples.heatParameters true;
            print_running 1]).
  exact (reachable_call Samples.pickThenDone _ _ Samples.willing
           (m_selectOption "Yes")
           (reachable_call Samples.pickThenDone _ _ Samples.willing
              m_start (reachable_init Samples.pickThenDone))).
Defined.

Lemma runStep_status_source (plan : Plan) (c : Celery) (r : Recipe) :
  status (self (runStep plan c r)) = running \/
  status (self (runStep plan c r)) = error ->
  status r = running \/ status r = error \/
  existsb is_runTask (calls (runStep plan c r)) = true.
Proof.
  rewrite runStep_outcome.
  destruct (getitem (steps plan) (step r)) as [s|]; [|tauto].
  destruct (step_message s) as [m|]; [|tauto].
  destruct (dispatches s) as [b|].
  - destruct (step_parameters s) as [p|].
    + destruct (runTask c (fst (task_of s b)) p (snd (task_of s b)));
        intros _; right; right; reflexivity.
    + unfold entered. simpl.
      destruct (0 <? Z.of_nat (List.length (option_texts s)));
        [intros [H|H]; discriminate H | tauto].
  - unfold finished, entered. simpl.
    destruct (step_done s) as [[|]|];
      try (intros [H|H]; discriminate H);
      (destruct (0 <? Z.of_nat (List.length (option_texts s)));
       [intros [H|H]; discriminate H | tauto]).
Qed.

(** X16: the status is ['running'] or ['error'] only after some task was
    handed to the Task Runner: in every reachable state with one of these
    two statuses the log holds a [runTask] call. *)
Theorem running_needs_dispatch (plan : Plan) (r : Recipe)
    (log : list Event) :
  reachable plan r log ->
  status r = running \/ status r = error ->
  existsb is_runTask log = true.
Proof.
  induction 1 as [|r log c m Hreach IH]; [intros [H|H]; discriminate H|].
  rewrite existsb_app.
  destruct (method_shape plan c m r)
    as [[-> _]|[[-> _]|[n [pre [-> [-> _]]]]]].
  - intros H. now rewrite (IH H).
  - intros [H|H]; discriminate H.
  - intros H. apply runStep_status_source in H.
    rewrite existsb_app.
    destruct H as [H|[H|H]].
    + now rewrite IH by now left.
    + now rewrite IH by now right.
    + rewrite H. now rewrite !orb_true_r.
Qed.

Lemma running_needs_dispatch_witness :
  existsb is_runTask
    [print_running 0; runTask_call "heat" Samples.heatParameters true;
     print_running 1] = true.
Proof.
  apply (running_needs_dispatch Samples.pickThenDone
           (mkRecipe 1 "Pick" running ["Yes"] "" None)).
  - exact (reachable_call Samples.pickThenDone _ _ Samples.willing
             (m_selectOption "Yes")
             (reachable_call Samples.pickThenDone _ _ Samples.willing
                m_start (reachable_init Samples.pickThenDone))).
  - now left.
Defined.

(** ** The control routines, tick by tick *)

Lemma heat_loop_exact (hw : Hardware) (targetTemp : Q) (n : nat) :
  forall k fuel,
    (forall i, (i < n)%nat -> (getTemp hw (k + i) < targetTemp)%Q) ->
    (targetTemp <= getTemp hw (k + n))%Q ->
    (n < fuel)%nat ->
    heat_loop fuel hw targetTemp k = Some (repeat (sleep interval) n).
Proof.
  induction n as [|n IH]; intros k fuel Hbelow Hreached Hfuel;
    (destruct fuel as [|fuel]; [lia|]); cbn [heat_loop].
  - rewrite Nat.add_0_r in Hreached.
    apply Qle_not_lt, Qlt_b_false in Hreached. now rewrite Hreached.
  - assert (H0 : Qlt_b (getTemp hw k) targetTemp = true).
    { apply Qlt_b_iff. rewrite <- (Nat.add_0_r k). apply Hbelow. lia. }
    rewrite H0, (IH (S k) fuel); [reflexivity| | |lia].
    + intros i Hi. replace (S k + i)%nat with (k + S i)%nat by lia.
      apply Hbelow. lia.
    + now replace (S k + n)%nat with (k + S n)%nat by lia.
Qed.

(** X17: [heat] sleeps once for every reading below the target and stops at
    the first reading at or above it: if that is reading number [n], the
    calls are heater on, [n] sleeps of half a second, heater off, and the
    cooler is not touched.  With a first reading already at the target the
    heater is switched on and off at once. *)
Theorem heat_sleeps_until_reached (hw : Hardware) (parameters : Parameters)
    (targetTemp : Q) (n fuel : nat) :
  p_temp parameters = Some targetTemp ->
  (forall i, (i < n)%nat -> (getTemp hw i < targetTemp)%Q) ->
  (targetTemp <= getTemp hw n)%Q ->
  (n < fuel)%nat ->
  heat fuel hw parameters =
    Some (Returned tt,
          turnHeaterOn :: repeat (sleep (1 # 2)) n ++ [turnHeaterOff]).
Proof.
  intros Hp Hbelow Hreached Hfuel. unfold heat.
  now rewrite Hp, (heat_loop_exact hw targetTemp n 0 fuel).
Qed.

Lemma heat_sleeps_until_reached_witness :
  heat 9 Samples.warming Samples.heatParameters =
    Some (Returned tt, turnHeaterOn :: repeat (sleep (1 # 2)) 5 ++
                       [turnHeaterOff]).
Proof.
  apply (heat_sleeps_until_reached Samples.warming Samples.heatParameters
           (65 # 1) 5 9).
  - reflexivity.
  - intros i Hi.
    destruct i as [|[|[|[|[|i]]]]]; [reflexivity | reflexivity | reflexivity
                                    | reflexivity | reflexivity | lia].
  - vm_compute. intros H. discriminate H.
  - lia.
Defined.

Lemma heat_loop_never (hw : Hardware) (targetTemp : Q) :
  (forall k, (getTemp hw k < targetTemp)%Q) ->
  forall fuel k, heat_loop fuel hw targetTemp k = None.
Proof.
  intros Hbelow. induction fuel as [|fuel IH]; intros k; [reflexivity|].
  cbn [heat_loop]. rewrite (proj2 (Qlt_b_iff _ _) (Hbelow k)).
  now rewrite IH.
Qed.

(** X18: [heat] has no timeout: if every reading stays below the target it
    never returns, however long it is run, and so never switches the
    heater off. *)
Theorem heat_never_returns (hw : Hardware) (parameters : Parameters)
    (targetTemp : Q) :
  p_temp parameters = Some targetTemp ->
  (forall k, (getTemp hw k < targetTemp)%Q) ->
  forall fuel, heat fuel hw parameters = None.
Proof.
  intros Hp Hbelow fuel. unfold heat.
  now rewrite Hp, heat_loop_never.
Qed.

Lemma heat_never_returns_witness :
  heat 1000 (Samples.steady (20 # 1)) Samples.heatParameters = None.
Proof.
  apply (heat_never_returns (Samples.steady (20 # 1))
           Samples.heatParameters (65 # 1)).
  - reflexivity.
  - intros k. reflexivity.
Defined.

Lemma cool_loop_exact (hw : Hardware) (targetTemp : Q) (n : nat) :
  forall k fuel,
    (forall i, (i < n)%nat -> (targetTemp < getTemp hw (k + i))%Q) ->
    (getTemp hw (k + n) <= targetTemp)%Q ->
    (n < fuel)%nat ->
    cool_loop fuel hw targetTemp k = Some (repeat (sleep interval) n).
Proof.
  induction n as [|n IH]; intros k fuel Habove Hreached Hfuel;
    (destruct fuel as [|fuel]; [lia|]); cbn [cool_loop].
  - rewrite Nat.add_0_r in Hreached.
    apply Qle_not_lt, Qlt_b_false in Hreached. now rewrite Hreached.
  - assert (H0 : Qlt_b targetTemp (getTemp hw k) = true).
    { apply Qlt_b_iff. rewrite <- (Nat.add_0_r k). apply Habove. lia. }
    rewrite H0, (IH (S k) fuel); [reflexivity| | |lia].
    + intros i Hi. replace (S k + i)%nat with (k + S i)%nat by lia.
      apply Habove. lia.
    + now replace (S k + n)%nat with (k + S n)%nat by lia.
Qed.

Lemma cool_loop_never (hw : Hardware) (targetTemp : Q) :
  (forall k, (targetTemp < getTemp hw k)%Q) ->
  forall fuel k, cool_loop fuel hw targetTemp k = None.
Proof.
  intros Habove. induction fuel as [|fuel IH]; intros k; [reflexivity|].
  cbn [cool_loop]. rewrite (proj2 (Qlt_b_iff _ _) (Habove k)).
  now rewrite IH.
Qed.

(** X19: [cool] mirrors [heat] with the comparison turned round: it sleeps
    once for every reading above the target and stops at the first reading
    at or below it, between cooler on and cooler off, leaving the heater
    alone; and like [heat] it never returns if every reading stays above
    the target. *)
Theorem cool_sleeps_until_reached (hw : Hardware) (parameters : Parameters)
    (targetTemp : Q) :
  p_temp parameters = Some targetTemp ->
  (forall n fuel,
     (forall i, (i < n)%nat -> (targetTemp < getTemp hw i)%Q) ->
     (getTemp hw n <= targetTemp)%Q ->
     (n < fuel)%nat ->
     cool fuel hw parameters =
       Some (Returned tt,
             turnCoolerOn :: repeat (sleep (1 # 2)) n ++ [turnCoolerOff]))
  /\
  ((forall k, (targetTemp < getTemp hw k)%Q) ->
   forall fuel, cool fuel hw parameters = None).
Proof.
  intros Hp. split.
  - intros n fuel Habove Hreached Hfuel. unfold cool.
    now rewrite Hp, (cool_loop_exact hw targetTemp n 0 fuel).
  - intros Habove fuel. unfold cool. now rewrite Hp, cool_loop_never.
Qed.

Lemma cool_sleeps_until_reached_witness :
  cool 4 (mkHardware (fun k => 8 - inject_Z (Z.of_nat k))%Q (fun _ => 0%Q))
    (mkParameters None (Some (5 # 1)) None None None None) =
    Some (Returned tt,
          turnCoolerOn :: repeat (sleep (1 # 2)) 3 ++ [turnCoolerOff]) /\
  forall fuel,
    cool fuel (Samples.steady (20 # 1))
      (mkParameters None (Some (5 # 1)) None None None None) = None.
Proof.
  split.
  - apply (proj1 (cool_sleeps_until_reached
             (mkHardware (fun k => 8 - inject_Z (Z.of_nat k))%Q
                (fun _ => 0%Q))
             (mkParameters None (Some (5 # 1)) None None None None)
             (5 # 1) eq_refl) 3%nat 4%nat).
    + intros i Hi.
      destruct i as [|[|[|i]]]; [reflexivity | reflexivity | reflexivity|].
      lia.
    + vm_compute. intros H. discriminate H.
    + lia.
  - apply (proj2 (cool_sleeps_until_reached (Samples.steady (20 # 1))
             (mkParameters None (Some (5 # 1)) None None None None)
             (5 # 1) eq_refl)).
    intros k. reflexivity.
Defined.







Lemma maintain_loop_commands (hw : Hardware) (start duration : Q)
    (targetTemp tolerance : Q) (type : string) :
  forall fuel k evs,
    maintain_loop fuel hw start duration targetTemp tolerance type k =
      Some evs ->
    forall e, In e evs ->
      exists seconds, e = sleep seconds \/
      e = off_command type \/ e = on_command type.
Proof.
  induction fuel as [|fuel IH]; intros k evs; [discriminate|].
  cbn [maintain_loop].
  destruct (Qlt_b (secondSinceStart hw (S k) - start) duration).
  - destruct (maintain_loop fuel hw start duration targetTemp tolerance
                type (S k)) as [evs'|] eqn:E; [|discriminate].
    intros H. injection H as <-. intros e [<-|Hin].
    + exists interval. now left.
    + apply in_app_or in Hin. destruct Hin as [Hin|Hin];
        [|now apply (IH (S k) evs')].
      exists interval. right. revert Hin.
      unfold maintain_tick, off_command, on_command.
      destruct (above_band targetTemp tolerance (getTemp hw k));
        destruct (below_band targetTemp tolerance (getTemp hw k));
        destruct (String.eqb type "heat"); simpl; intuition.
  - intros H. injection H as <-. intros e [].
Qed.

(** X22: until its final heater off and cooler off, a heat-type [maintain]
    commands only the heater and any other type only the cooler: the first
    never switches the cooler on, the others never switch the heater on. *)
Theorem maintain_one_actuator (hw : Hardware) (parameters : Parameters)
    (type : string) (fuel : nat) (evs : list Event) :
  p_type parameters = Some type ->
  maintain fuel hw parameters = Some (Returned tt, evs) ->
  (type = "heat" -> ~ In turnCoolerOn evs) /\
  (type <> "heat" -> ~ In turnHeaterOn evs).
Proof.
  intros Hty. unfold maintain. rewrite Hty.
  destruct (p_time parameters) as [duration|]; [|discriminate].
  destruct (p_temp parameters) as [targetTemp|]; [|discriminate].
  destruct (p_tolerance parameters) as [tolerance|]; [|discriminate].
  cbv zeta.
  destruct (maintain_loop fuel hw _ duration targetTemp tolerance type 0)
    as [evs'|] eqn:E; [|discriminate].
  intros H. injection H as <-.
  pose proof (maintain_loop_commands hw _ duration targetTemp tolerance
                type fuel 0 evs' E) as Hcmd.
  split; intros Ht Hin; apply in_app_or in Hin;
    (destruct Hin as [Hin|[Hin|[Hin|[]]]]; try discriminate Hin);
    destruct (Hcmd _ Hin) as [seconds [H|[H|H]]]; try discriminate H;
    revert H; unfold off_command, on_command.
  - subst type. discriminate.
  - subst type. discriminate.
  - now rewrite (proj2 (String.eqb_neq type "heat") Ht).
  - now rewrite (proj2 (String.eqb_neq type "heat") Ht).
Qed.

Lemma maintain_one_actuator_witness :
  ("cool" = "heat" ->
   ~ In turnCoolerOn
       [sleep interval; turnCoolerOn; turnHeaterOff; turnCoolerOff]) /\
  ("cool" <> "heat" ->
   ~ In turnHeaterOn
       [sleep interval; turnCoolerOn; turnHeaterOff; turnCoolerOff]).
Proof.
  apply (maintain_one_actuator (Samples.steady (671 # 10))
           (set_type "cool" Samples.maintainParameters) "cool" 2).
  - reflexivity.
  - reflexivity.
Defined.

Lemma maintain_loop_other_type (hw : Hardware) (start duration : Q)
    (targetTemp tolerance : Q) (type : string) :
  type <> "heat" ->
  forall fuel k,
    maintain_loop fuel hw start duration targetTemp tolerance type k =
    maintain_loop fuel hw start duration targetTemp tolerance "cool" k.
Proof.
  intros Hty. apply String.eqb_neq in Hty.
  induction fuel as [|fuel IH]; intros k; [reflexivity|].
  cbn [maintain_loop]. rewrite IH. unfold maintain_tick.
  now rewrite Hty.
Qed.

(** X23: [maintain] tests the type only against ['heat'], so every other
    type, known or not, is handled as ['cool']; and the two wrappers
    overwrite the caller's ['type'], so [maintainHeat] and [maintainCool]
    do not depend on it and do not need it. *)
Theorem maintain_type_cases (hw : Hardware) (parameters : Parameters)
    (fuel : nat) (type : string) :
  (type <> "heat" ->
   maintain fuel hw (set_type type parameters) =
   maintainCool fuel hw parameters) /\
  maintainHeat fuel hw (set_type type parameters) =
    maintainHeat fuel hw parameters /\
  maintainCool fuel hw (set_type type parameters) =
    maintainCool fuel hw parameters /\
  maintainHeat fuel hw parameters <> Some (Raised (KeyError "type"), []) /\
  maintainCool fuel hw parameters <> Some (Raised (KeyError "type"), []).
Proof.
  split; [|repeat split].
  - intros Hty. unfold maintainCool, maintain. simpl.
    destruct (p_time parameters) as [duration|]; [|reflexivity].
    destruct (p_temp parameters) as [targetTemp|]; [|reflexivity].
    destruct (p_tolerance parameters) as [tolerance|]; [|reflexivity].
    now rewrite (maintain_loop_other_type hw _ duration targetTemp
                   tolerance type Hty).
  - unfold maintainHeat, maintain. simpl.
    destruct (p_time parameters); [|discriminate].
    destruct (p_temp parameters); [|discriminate].
    destruct (p_tolerance parameters); [|discriminate].
    destruct (maintain_loop fuel hw _ _ _ _ _ 0); discriminate.
  - unfold maintainCool, maintain. simpl.
    destruct (p_time parameters); [|discriminate].
    destruct (p_temp parameters); [|discriminate].
    destruct (p_tolerance parameters); [|discriminate].
    destruct (maintain_loop fuel hw _ _ _ _ _ 0); discriminate.
Qed.

Lemma maintain_type_cases_witness :
  maintain 2 (Samples.steady (671 # 10))
    (set_type "chill" Samples.maintainParameters) =
  maintainCool 2 (Samples.steady (671 # 10)) Samples.maintainParameters.
Proof.
  apply (proj1 (maintain_type_cases (Samples.steady (671 # 10))
                  Samples.maintainParameters 2 "chill")).
  discriminate.
Defined.








(** [pump] is a single dispense call. *)
Example pump_dispenses_once :
  pump (mkParameters None None None None (Some "A") (Some (50 # 1))) =
    (Returned tt, [pumpDispense "A" (50 # 1)]) /\
  pump (mkParameters None None None None None (Some (50 # 1))) =
    (Raised (KeyError "pump"), []).
Proof. split; reflexivity. Qed.

(** ** Final steps of well-formed plans *)






